(** * lambda-challenge: the RunInstances notification relay

    A shallow embedding of [lambda_function.py].  The handler is triggered
    by an S3 event, reads and decodes the gzipped log object the event
    names, scans its records for a [RunInstances] event and POSTs a summary
    to a Slack webhook.

    Python values that come out of [json.loads] are modelled by [json];
    the services and libraries the module calls (S3, gzip, the UTF-8 codec,
    [json.loads], [requests.post]) are the fields of an [Env]; what the
    module does to the outside world is recorded in a trace of [effect]s,
    threaded through a small state-and-exception monad [M]. *)

From stdpp Require Import base gmap strings list pretty.
From Stdlib Require Import ZArith.
From Stdlib.Strings Require Import Ascii String Byte.

Set Warnings "-register-all".

Local Open Scope Z_scope.
Local Open Scope string_scope.
Local Open Scope list_scope.

(** ** Python values *)

(** The values [json.loads] builds.  A [str] is carried by the bytes of its
    UTF-8 encoding, under which equality, concatenation, [split('/')] and
    [join] are those of the text; indexing and iterating a str go byte by
    byte, which changes the one-character strs they yield on text that is
    not ASCII, and the module never looks inside these.  A [dict] built
    from JSON has [str] keys only. *)
Inductive json : Type :=
  | JNull
  | JBool (b : bool)
  | JInt (n : Z)
  | JFloat (literal : string)
  | JStr (s : string)
  | JArr (items : list json)
  | JObj (d : gmap string json).

(** The exceptions the module can raise.  [LibraryError] stands for the
    exception classes of the libraries ([ClientError], [BadGzipFile],
    [UnicodeDecodeError], [JSONDecodeError], [ConnectionError], ...). *)
Inductive exn : Type :=
  | KeyError (key : json)
  | IndexError
  | TypeError
  | ValueError
  | AttributeError
  | LibraryError (name : string).

Inductive result (A : Type) : Type :=
  | Ok (a : A)
  | Raise (e : exn).
Arguments Ok {A} a.
Arguments Raise {A} e.

(** ** Effects *)

(** What the module does that can be seen from outside: a line handed to
    [logger.info], a call of [s3.get_object], a call of [requests.post]
    (recorded when it is made, whatever comes back). *)
Inductive effect : Type :=
  | LogInfo (msg : string)
  | S3GetObject (bucket key : json)
  | HttpPost (url : string) (headers : gmap string string) (body : json).

Definition trace := list effect.

Definition is_post (e : effect) : bool :=
  match e with HttpPost _ _ _ => true | _ => false end.

(** The POSTs of a trace, oldest first. *)
Definition posts (t : trace) : trace := filter (fun e => is_post e = true) t.

(** A computation appends its effects to the trace it is given, and either
    returns a value or raises. *)
Definition M (A : Type) : Type := trace -> result A * trace.

Definition ret {A} (a : A) : M A := fun t => (Ok a, t).
Definition bind {A B} (m : M A) (k : A -> M B) : M B :=
  fun t => match m t with
           | (Ok a, t') => k a t'
           | (Raise e, t') => (Raise e, t')
           end.
Definition emit (e : effect) : M unit := fun t => (Ok tt, t ++ [e]).
Definition lift {A} (r : result A) : M A := fun t => (r, t).

Notation "x <- m ;; k" := (bind m (fun x => k))
  (at level 100, m at next level, right associativity).
Notation "m ;;; k" := (bind m (fun _ => k))
  (at level 100, right associativity).

(** ** Python primitives on [json] values *)

Definition LF : string := String "010"%char "".

(** [v[k]] for a [str] key [k]. *)
Definition getitem (v : json) (k : string) : result json :=
  match v with
  | JObj d => match d !! k with
              | Some x => Ok x
              | None => Raise (KeyError (JStr k))
              end
  | _ => Raise TypeError
  end.

(** [v[0]]. *)
Definition getitem_0 (v : json) : result json :=
  match v with
  | JArr (x :: _) => Ok x
  | JArr [] => Raise IndexError
  | JStr (String c _) => Ok (JStr (String c ""))
  | JStr "" => Raise IndexError
  | JObj _ => Raise (KeyError (JInt 0))
  | _ => Raise TypeError
  end.

(** The elements [for x in v] goes through: the items of a list, the keys
    of a dict, the characters of a str; anything else is not iterable. *)
Definition iter (v : json) : result (list json) :=
  match v with
  | JArr items => Ok items
  | JObj d => Ok (JStr <$> (map_to_list d).*1)
  | JStr s => Ok ((fun c => JStr (String c "")) <$> list_ascii_of_string s)
  | _ => Raise TypeError
  end.

(** [v == s] for a str [s]: no value of another type equals a str. *)
Definition eq_str (v : json) (s : string) : bool :=
  match v with
  | JStr s' => String.eqb s' s
  | _ => false
  end.

(** [s.split(sep)] for a one-character separator. *)
Fixpoint str_split (sep : ascii) (s : string) : list string :=
  match s with
  | "" => [""]
  | String c s' =>
      if Ascii.eqb c sep then "" :: str_split sep s'
      else match str_split sep s' with
           | piece :: pieces => String c piece :: pieces
           | [] => [String c ""]
           end
  end.

(** [v.split('/')]: only a str has the method. *)
Definition split_slash (v : json) : result (list string) :=
  match v with
  | JStr s => Ok (str_split "/"%char s)
  | _ => Raise AttributeError
  end.

(** [a, b, c = parts]. *)
Definition unpack3 (parts : list string) : result (string * string * string) :=
  match parts with
  | [a; b; c] => Ok (a, b, c)
  | _ => Raise ValueError
  end.

Fixpoint str_join (sep : string) (l : list string) : string :=
  match l with
  | [] => ""
  | [x] => x
  | x :: rest => x +:+ sep +:+ str_join sep rest
  end.

(** The items of a list as strs, when all of them are. *)
Fixpoint all_str (l : list json) : option (list string) :=
  match l with
  | [] => Some []
  | JStr s :: rest => cons s <$> all_str rest
  | _ :: _ => None
  end.

(** [sep.join(l)]: raises when an item is not a str. *)
Definition join (sep : string) (l : list json) : result string :=
  match all_str l with
  | Some strs => Ok (str_join sep strs)
  | None => Raise TypeError
  end.

(** ** The outside world *)

(** What [s3.get_object] returns: only [data['Body'].read()] is used. *)
Record s3_response : Type := { Body_read : result (list byte) }.

(** What [requests.post] returns: only [status_code] is used. *)
Record response : Type := { status_code : Z }.

Record Env : Type := {
  (** [os.environ['SLACK_URL']], read when the module is loaded *)
  SLACK_URL : string;
  (** [s3.get_object(Bucket=bucket, Key=key)] *)
  s3_get_object : json -> json -> result s3_response;
  (** [GzipFile(None, 'rb', fileobj=BytesIO(b)).read()] *)
  gzip_read : list byte -> result (list byte);
  (** [b.decode('utf-8')] *)
  decode_utf8 : list byte -> result string;
  (** [json.loads(s)] *)
  json_loads : string -> result json;
  (** [requests.post(url, headers=header, json=data)] *)
  requests_post : string -> gmap string string -> json -> result response
}.

(** ** The module *)

(** [v[k]] and [v[0]] as steps of a computation. *)
Definition item (v : json) (k : string) : M json := lift (getitem v k).
Definition item_0 (v : json) : M json := lift (getitem_0 v).

(** [format_data(data)]: the S3 event names a bucket and a key; the object
    there is read, gunzipped, decoded and parsed. *)
Definition format_data (w : Env) (data : json) : M json :=
  records <- item data "Records";;
  record <- item_0 records;;
  s3 <- item record "s3";;
  bucket_d <- item s3 "bucket";;
  bucket <- item bucket_d "name";;
  records <- item data "Records";;
  record <- item_0 records;;
  s3 <- item record "s3";;
  object_d <- item s3 "object";;
  key <- item object_d "key";;
  emit (S3GetObject bucket key);;;
  data <- lift (s3_get_object w bucket key);;
  body <- lift (Body_read data);;
  unzipped <- lift (gzip_read w body);;
  data_str <- lift (decode_utf8 w unzipped);;
  data_json <- lift (json_loads w data_str);;
  ret data_json.

(** What [get_events] returns: the tuple [(1, username, role,
    instance_names)] or the tuple [(0, 'Event not present.')]. *)
Inductive event_vals : Type :=
  | EventFound (username role : string) (instance_names : list json)
  | EventNotPresent.

(** [event_vals[0]] *)
Definition tuple_0 (ev : event_vals) : Z :=
  match ev with
  | EventFound _ _ _ => 1
  | EventNotPresent => 0
  end.

(** The inner loop of [get_events]: [instance_names.append(item['instanceId'])]
    for each item, [instance_names] being the list built so far. *)
Fixpoint instance_names_loop (items instance_names : list json)
    : M (list json) :=
  match items with
  | [] => ret instance_names
  | item_ :: rest =>
      instance_name <- item item_ "instanceId";;
      instance_names_loop rest (instance_names ++ [instance_name])
  end.

(** The body of [get_events] under [if record['eventName'] == event_type]. *)
Definition extract_record (record : json) : M event_vals :=
  emit (LogInfo "RUNINSTANCES event found.");;;
  user_identity <- item record "userIdentity";;
  iam_entity <- item user_identity "arn";;
  parts <- lift (split_slash iam_entity);;
  unpacked <- lift (unpack3 parts);;
  let '(arn, role, username) := unpacked in
  emit (LogInfo ("Assumed Role == " +:+ role +:+ LF +:+
                 "Username == " +:+ username));;;
  response_elements <- item record "responseElements";;
  instances_set <- item response_elements "instancesSet";;
  instances <- item instances_set "items";;
  items <- lift (iter instances);;
  instance_names <- instance_names_loop items [];;
  ret (EventFound username role instance_names).

(** The outer loop of [get_events] over the records still to visit. *)
Fixpoint get_events_loop (records : list json) (event_type : string)
    : M event_vals :=
  match records with
  | [] => ret EventNotPresent
  | record :: rest =>
      event_name <- item record "eventName";;
      if eq_str event_name event_type then extract_record record
      else get_events_loop rest event_type
  end.

Definition get_events (json_data : json) (event_type : string)
    : M event_vals :=
  records_v <- item json_data "Records";;
  records <- lift (iter records_v);;
  get_events_loop records event_type.

(** The [header] and [data] dicts of [update_slack]. *)
Definition slack_header : gmap string string :=
  {[ "content-type" := "application/json" ]}.

Definition slack_attachment (username role instance_str : string) : json :=
  JObj (<[ "author_name" := JStr ("User: " +:+ username +:+ LF +:+
                                  "Role: " +:+ role) ]>
       (<[ "title" := JStr "Instance Names" ]>
       (<[ "text" := JStr instance_str ]>
       (<[ "color" := JStr "#FF0000" ]> ∅)))).

Definition slack_data (username role instance_str : string) : json :=
  JObj (<[ "text" := JStr "RunInstances event detected." ]>
       (<[ "attachments" :=
             JArr [slack_attachment username role instance_str] ]> ∅)).

Definition update_slack (w : Env) (username role : string)
    (instances : list json) : M Z :=
  instance_str <- lift (join LF instances);;
  let header := slack_header in
  let data := slack_data username role instance_str in
  emit (HttpPost (SLACK_URL w) header data);;;
  send_to_slack <- lift (requests_post w (SLACK_URL w) header data);;
  emit (LogInfo ("Slack POST returned HTTP code " +:+
                 pretty (status_code send_to_slack)));;;
  ret (status_code send_to_slack).

(** [lambda_handler(event, context)]; [context] is not used.  The test
    [event_vals[0] == 1] holds for the 4-tuple alone. *)
Definition lambda_handler (w : Env) (event : json) : M unit :=
  json_data <- format_data w event;;
  event_vals <- get_events json_data "RunInstances";;
  if (tuple_0 event_vals =? 1)%Z then
    match event_vals with
    | EventFound username iam_role instance_names =>
        update_slack w username iam_role instance_names;;; ret tt
    | EventNotPresent => ret tt
    end
  else ret tt.

(** Running a computation from the empty trace. *)
Definition run {A} (m : M A) : result A * trace := m [].

(** ** Scenario data *)

(** The record of scenario A. *)
Definition scenario_A_record : gmap string json :=
  <[ "eventName" := JStr "RunInstances" ]>
  (<[ "userIdentity" :=
        JObj {[ "arn" := JStr "arn:aws:sts::123:assumed-role/Admin/alice" ]} ]>
  (<[ "responseElements" :=
        JObj {[ "instancesSet" :=
          JObj {[ "items" :=
            JArr [JObj {[ "instanceId" := JStr "i-1" ]};
                  JObj {[ "instanceId" := JStr "i-2" ]}] ]} ]} ]> ∅)).

Definition scenario_A_log : gmap string json :=
  {[ "Records" := JArr [JObj scenario_A_record] ]}.

(** An S3 event naming the object [key] of the bucket [bucket]. *)
Definition s3_event (bucket key : string) : json :=
  JObj {[ "Records" :=
    JArr [JObj {[ "s3" :=
      JObj (<[ "bucket" := JObj {[ "name" := JStr bucket ]} ]>
           {[ "object" := JObj {[ "key" := JStr key ]} ]}) ]}] ]}.

(** A record of another event, complete, and one that keeps its
    [eventName] alone, beside a [userIdentity] that is no dict. *)
Definition other_record : gmap string json :=
  <[ "eventName" := JStr "StopInstances" ]>
  (<[ "userIdentity" :=
        JObj {[ "arn" := JStr "arn:aws:sts::123:assumed-role/Ops/bob" ]} ]>
  (<[ "responseElements" :=
        JObj {[ "instancesSet" :=
          JObj {[ "items" := JArr [JObj {[ "instanceId" := JStr "i-9" ]}] ]}
        ]} ]> ∅)).

Definition bare_record : gmap string json :=
  <[ "eventName" := JStr "StopInstances" ]> {[ "userIdentity" := JNull ]}.

(** A launch by an IAM user, whose arn has one [/] only. *)
Definition iam_user_record : gmap string json :=
  <[ "eventName" := JStr "RunInstances" ]>
  (<[ "userIdentity" := JObj {[ "arn" := JStr "arn:aws:iam::123:user/alice" ]} ]>
  (<[ "responseElements" :=
        JObj {[ "instancesSet" :=
          JObj {[ "items" := JArr [JObj {[ "instanceId" := JStr "i-5" ]}] ]}
        ]} ]> ∅)).

(** A later launch, and a log with two launches after a record of another
    event. *)
Definition second_launch_record : gmap string json :=
  <[ "eventName" := JStr "RunInstances" ]>
  (<[ "userIdentity" :=
        JObj {[ "arn" := JStr "arn:aws:sts::123:assumed-role/Dev/carol" ]} ]>
  (<[ "responseElements" :=
        JObj {[ "instancesSet" :=
          JObj {[ "items" := JArr [JObj {[ "instanceId" := JStr "i-7" ]}] ]}
        ]} ]> ∅)).

Definition two_launches_log : gmap string json :=
  {[ "Records" := JArr [JObj other_record; JObj scenario_A_record;
                        JObj second_launch_record] ]}.

(** Equality of byte strings. *)
Definition bytes_eqb (a b : list byte) : bool :=
  String.eqb (string_of_list_byte a) (string_of_list_byte b).

(** A world with one object, [trail.json.gz] in the bucket [logs], whose
    bytes [gz] gunzip to the ASCII bytes [text], the JSON text of [doc];
    the webhook answers every POST with the status [code]. *)
Definition one_object_env (gz text : list byte) (doc : json) (code : Z)
    : Env :=
  {| SLACK_URL := "https://hooks.slack.example/services/T0";
     s3_get_object := fun bucket key =>
       if eq_str bucket "logs" && eq_str key "trail.json.gz"
       then Ok {| Body_read := Ok gz |}
       else Raise (LibraryError "NoSuchKey");
     gzip_read := fun b =>
       if bytes_eqb b gz then Ok text
       else Raise (LibraryError "BadGzipFile");
     decode_utf8 := fun b =>
       if bytes_eqb b text then Ok (string_of_list_byte text)
       else Raise (LibraryError "UnicodeDecodeError");
     json_loads := fun s =>
       if String.eqb s (string_of_list_byte text) then Ok doc
       else Raise (LibraryError "JSONDecodeError");
     requests_post := fun _ _ _ => Ok {| status_code := code |} |}.

(** The two bytes of the JSON text of the empty object, and their gzip
    encoding. *)
Definition empty_text : list byte := [x7b; x7d].

Definition empty_gz : list byte :=
  [x1f; x8b; x08; x00; x00; x00; x00; x00; x02; xff; xab; xae;
   x05; x00; x43; xbf; xa6; xa3; x02; x00; x00; x00].

(** The JSON text of [scenario_A_log], without white space, and its gzip
    encoding. *)
Definition scenario_A_text : list byte :=
  [x7b; x22; x52; x65; x63; x6f; x72; x64; x73; x22; x3a; x5b;
   x7b; x22; x65; x76; x65; x6e; x74; x4e; x61; x6d; x65; x22;
   x3a; x22; x52; x75; x6e; x49; x6e; x73; x74; x61; x6e; x63;
   x65; x73; x22; x2c; x22; x75; x73; x65; x72; x49; x64; x65;
   x6e; x74; x69; x74; x79; x22; x3a; x7b; x22; x61; x72; x6e;
   x22; x3a; x22; x61; x72; x6e; x3a; x61; x77; x73; x3a; x73;
   x74; x73; x3a; x3a; x31; x32; x33; x3a; x61; x73; x73; x75;
   x6d; x65; x64; x2d; x72; x6f; x6c; x65; x2f; x41; x64; x6d;
   x69; x6e; x2f; x61; x6c; x69; x63; x65; x22; x7d; x2c; x22;
   x72; x65; x73; x70; x6f; x6e; x73; x65; x45; x6c; x65; x6d;
   x65; x6e; x74; x73; x22; x3a; x7b; x22; x69; x6e; x73; x74;
   x61; x6e; x63; x65; x73; x53; x65; x74; x22; x3a; x7b; x22;
   x69; x74; x65; x6d; x73; x22; x3a; x5b; x7b; x22; x69; x6e;
   x73; x74; x61; x6e; x63; x65; x49; x64; x22; x3a; x22; x69;
   x2d; x31; x22; x7d; x2c; x7b; x22; x69; x6e; x73; x74; x61;
   x6e; x63; x65; x49; x64; x22; x3a; x22; x69; x2d; x32; x22;
   x7d; x5d; x7d; x7d; x7d; x5d; x7d].

Definition scenario_A_gz : list byte :=
  [x1f; x8b; x08; x00; x00; x00; x00; x00; x02; xff; x65; x8e;
   xb1; x0e; xc2; x30; x0c; x44; xff; xc5; x73; xab; xaa; x65;
   xf3; xc6; xc0; xd0; x85; xa1; x8c; x88; x21; x4a; x6e; x88;
   xd4; xb8; x28; x4e; x41; xa8; xca; xbf; x63; x40; x9d; x18;
   x6c; xe9; x7c; xa7; x77; xde; x68; x82; x5f; x72; x50; xe2;
   xeb; x46; x78; x40; xca; xd9; x25; x10; xd3; xb4; xca; x28;
   x5a; x9c; x78; x28; x35; xb4; x2a; xf2; x18; xcc; x8e; xe5;
   x45; xbc; x91; xcb; x62; x21; xdb; xec; x9e; xca; x5a; x94;
   xb9; x1f; x0e; xec; x54; xd7; x84; xd0; xe6; x65; x46; x77;
   x0c; x29; x4a; xe7; xe6; xe8; x41; xb5; xa1; x0c; xbd; x2f;
   xa2; x38; xcd; x48; x06; xd2; x0f; x26; xee; x15; x17; x94;
   xaf; x2e; x48; xbf; x5f; x76; x67; x0c; xd6; x13; xdb; xde;
   x08; x7f; xc7; x81; xea; xad; x56; x9b; x37; x0c; xd9; xb8;
   x62; xc7; x00; x00; x00].

(** The world of a log without [Records], and the world of scenario A whose
    webhook answers [code]. *)
Definition empty_log_env : Env :=
  one_object_env empty_gz empty_text (JObj ∅) 200.

Definition scenario_A_env (code : Z) : Env :=
  one_object_env scenario_A_gz scenario_A_text (JObj scenario_A_log) code.

(** A launch whose one instance id is a number, the JSON text of the log
    that holds it alone, and the gzip encoding of that text. *)
Definition numeric_id_record : gmap string json :=
  <[ "eventName" := JStr "RunInstances" ]>
  (<[ "userIdentity" :=
        JObj {[ "arn" := JStr "arn:aws:sts::123:assumed-role/Admin/alice" ]} ]>
  (<[ "responseElements" :=
        JObj {[ "instancesSet" :=
          JObj {[ "items" := JArr [JObj {[ "instanceId" := JInt 7 ]}] ]}
        ]} ]> ∅)).

Definition numeric_id_log : gmap string json :=
  {[ "Records" := JArr [JObj numeric_id_record] ]}.

Definition numeric_id_text : list byte :=
  [x7b; x22; x52; x65; x63; x6f; x72; x64; x73; x22; x3a; x5b;
   x7b; x22; x65; x76; x65; x6e; x74; x4e; x61; x6d; x65; x22;
   x3a; x22; x52; x75; x6e; x49; x6e; x73; x74; x61; x6e; x63;
   x65; x73; x22; x2c; x22; x75; x73; x65; x72; x49; x64; x65;
   x6e; x74; x69; x74; x79; x22; x3a; x7b; x22; x61; x72; x6e;
   x22; x3a; x22; x61; x72; x6e; x3a; x61; x77; x73; x3a; x73;
   x74; x73; x3a; x3a; x31; x32; x33; x3a; x61; x73; x73; x75;
   x6d; x65; x64; x2d; x72; x6f; x6c; x65; x2f; x41; x64; x6d;
   x69; x6e; x2f; x61; x6c; x69; x63; x65; x22; x7d; x2c; x22;
   x72; x65; x73; x70; x6f; x6e; x73; x65; x45; x6c; x65; x6d;
   x65; x6e; x74; x73; x22; x3a; x7b; x22; x69; x6e; x73; x74;
   x61; x6e; x63; x65; x73; x53; x65; x74; x22; x3a; x7b; x22;
   x69; x74; x65; x6d; x73; x22; x3a; x5b; x7b; x22; x69; x6e;
   x73; x74; x61; x6e; x63; x65; x49; x64; x22; x3a; x37; x7d;
   x5d; x7d; x7d; x7d; x5d; x7d].

Definition numeric_id_gz : list byte :=
  [x1f; x8b; x08; x00; x00; x00; x00; x00; x02; xff; x35; x4e;
   xb1; x0a; xc2; x40; x14; xfb; x97; x37; x57; x8a; x3a; x08;
   x6f; x73; x70; xe8; xe2; x50; x47; x71; x78; xdc; x65; x38;
   xe8; xbd; xca; xbd; x6b; x45; x8e; xfb; x77; x4f; xa5; x43;
   x02; x21; x21; x49; xa1; x11; x6e; x4e; xde; x88; xef; x85;
   xb0; x42; xf3; x55; x22; x88; x69; x5c; x74; x50; xcb; xa2;
   x0e; x46; x1d; x2d; x86; x34; xf8; x66; x87; xfc; x26; x2e;
   x24; x49; x5b; xa8; x31; xcb; xcb; xd8; xb2; x31; xef; x0f;
   x47; x16; xb3; x25; xc2; xef; xd2; x3c; xa1; x3f; xfb; x18;
   xb4; x97; x29; x38; x50; xed; x28; xc1; x9e; xb3; x1a; x2e;
   x13; x62; x2b; xb2; x6f; x4d; xd8; x26; x6e; xc8; x3f; x9d;
   x11; xff; x5f; x36; x67; xf0; xc4; xa7; xfa; xa8; xb5; xe1;
   x03; x0d; x21; x74; xec; xae; x00; x00; x00].

Definition numeric_id_env : Env :=
  one_object_env numeric_id_gz numeric_id_text (JObj numeric_id_log) 200.

Definition trail_event : json := s3_event "logs" "trail.json.gz".

(** ** Predicates of the statements *)

(** A record the scan tests and passes over: a dict whose [eventName] is
    there and is not the event looked for. *)
Definition other_event (event_type : string) (record : json) : bool :=
  match record with
  | JObj d => match d !! "eventName" with
              | Some v => negb (eq_str v event_type)
              | None => false
              end
  | _ => false
  end.

(** A record the scan stops at: a dict whose [eventName] is the str
    looked for. *)
Definition is_event (event_type : string) (record : json) : bool :=
  match record with
  | JObj d => match d !! "eventName" with
              | Some v => eq_str v event_type
              | None => false
              end
  | _ => false
  end.

(** A computation is quiet when it adds no POST to the trace. *)
Definition quiet {A} (m : M A) : Prop :=
  forall t, exists es, snd (m t) = t ++ es /\ posts es = [].

(** Sequencing of results, outside the trace. *)
Definition and_then {A B} (r : result A) (k : A -> result B) : result B :=
  match r with
  | Ok a => k a
  | Raise e => Raise e
  end.

(** The right-hand sides of the first two lines of [format_data]:
    [data['Records'][0]['s3']['bucket']['name']] and
    [data['Records'][0]['s3']['object']['key']]. *)
Definition event_bucket (data : json) : result json :=
  and_then (getitem data "Records") (fun records =>
  and_then (getitem_0 records) (fun record =>
  and_then (getitem record "s3") (fun s3 =>
  and_then (getitem s3 "bucket") (fun bucket_d =>
  getitem bucket_d "name")))).

Definition event_key (data : json) : result json :=
  and_then (getitem data "Records") (fun records =>
  and_then (getitem_0 records) (fun record =>
  and_then (getitem record "s3") (fun s3 =>
  and_then (getitem s3 "object") (fun object_d =>
  getitem object_d "key")))).

(** The rest of [format_data], from [s3.get_object] to [json.loads], as
    the value or the exception it ends in. *)
Definition fetch_decode (w : Env) (bucket key : json) : result json :=
  and_then (s3_get_object w bucket key) (fun data =>
  and_then (Body_read data) (fun body =>
  and_then (gzip_read w body) (fun unzipped =>
  and_then (decode_utf8 w unzipped) (fun data_str =>
  json_loads w data_str)))).

(** How many times a character occurs in a str. *)
Fixpoint count_char (c : ascii) (s : string) : nat :=
  match s with
  | "" => 0%nat
  | String c' s' =>
      ((if Ascii.eqb c' c then 1 else 0) + count_char c s')%nat
  end.

(** An S3 event for an object that is not there. *)
Definition missing_object_event : json := s3_event "logs" "gone.json.gz".

(** A world whose webhook cannot be reached. *)
Definition unreachable_webhook_env : Env :=
  {| SLACK_URL := SLACK_URL (scenario_A_env 200);
     s3_get_object := s3_get_object (scenario_A_env 200);
     gzip_read := gzip_read (scenario_A_env 200);
     decode_utf8 := decode_utf8 (scenario_A_env 200);
     json_loads := json_loads (scenario_A_env 200);
     requests_post := fun _ _ _ => Raise (LibraryError "ConnectionError") |}.

(** A launch that failed: [responseElements] is null. *)
Definition failed_launch_record : gmap string json :=
  <[ "eventName" := JStr "RunInstances" ]>
  (<[ "userIdentity" :=
        JObj {[ "arn" := JStr "arn:aws:sts::123:assumed-role/Admin/alice" ]} ]>
  (<[ "responseElements" := JNull ]> ∅)).

(** A launch by a service: [userIdentity] has no [arn]. *)
Definition service_launch_record : gmap string json :=
  <[ "eventName" := JStr "RunInstances" ]>
  (<[ "userIdentity" := JObj {[ "invokedBy" := JStr "autoscaling.amazonaws.com" ]} ]>
  (<[ "responseElements" :=
        JObj {[ "instancesSet" :=
          JObj {[ "items" := JArr [JObj {[ "instanceId" := JStr "i-3" ]}] ]}
        ]} ]> ∅)).

(** A launch one of whose items has no [instanceId]. *)
Definition missing_id_record : gmap string json :=
  <[ "eventName" := JStr "RunInstances" ]>
  (<[ "userIdentity" :=
        JObj {[ "arn" := JStr "arn:aws:sts::123:assumed-role/Admin/alice" ]} ]>
  (<[ "responseElements" :=
        JObj {[ "instancesSet" :=
          JObj {[ "items" :=
            JArr [JObj {[ "instanceId" := JStr "i-1" ]};
                  JObj {[ "imageId" := JStr "ami-1" ]}] ]} ]} ]> ∅)).

(** An S3 event with two records: the object of the worlds above, then
    another. *)
Definition trail_trigger_record : json :=
  JObj {[ "s3" :=
    JObj (<[ "bucket" := JObj {[ "name" := JStr "logs" ]} ]>
         {[ "object" := JObj {[ "key" := JStr "trail.json.gz" ]} ]}) ]}.

Definition other_trigger_record : json :=
  JObj {[ "s3" :=
    JObj (<[ "bucket" := JObj {[ "name" := JStr "logs" ]} ]>
         {[ "object" := JObj {[ "key" := JStr "later.json.gz" ]} ]}) ]}.

Definition two_objects_event : json :=
  JObj {[ "Records" := JArr [trail_trigger_record; other_trigger_record] ]}.

(** A record without [eventName]. *)
Definition nameless_record : gmap string json :=
  {[ "eventSource" := JStr "ec2.amazonaws.com" ]}.

(** The calls of [s3.get_object] among effects, and the computations that
    make none. *)
Definition is_read (e : effect) : bool :=
  match e with S3GetObject _ _ => true | _ => false end.

Definition reads_nothing {A} (m : M A) : Prop :=
  forall t, exists es,
    snd (m t) = t ++ es /\ forallb (fun e => negb (is_read e)) es = true.

(** ** Laws of the monad *)

Section Laws.
Context {A B : Type}.
Implicit Types (m : M A) (k : A -> M B) (t : trace).

Lemma bind_ok m k t a t' : m t = (Ok a, t') -> bind m k t = k a t'.
Proof. intros H. unfold bind. now rewrite H. Qed.

Lemma bind_raise m k t e t' :
  m t = (Raise e, t') -> bind m k t = (Raise e, t').
Proof. intros H. unfold bind. now rewrite H. Qed.

Lemma bind_lift_ok (a : A) k t : bind (lift (Ok a)) k t = k a t.
Proof. reflexivity. Qed.

Lemma bind_lift_raise e k t : bind (lift (Raise e)) k t = (Raise e, t).
Proof. reflexivity. Qed.
End Laws.

Lemma posts_app (t1 t2 : trace) : posts (t1 ++ t2) = posts t1 ++ posts t2.
Proof. unfold posts. apply filter_app. Qed.

Lemma quiet_posts {A} (m : M A) t : quiet m -> posts (snd (m t)) = posts t.
Proof.
  intros Hq. destruct (Hq t) as (es & -> & Hes).
  rewrite posts_app, Hes. apply app_nil_r.
Qed.

Lemma quiet_ret {A} (a : A) : quiet (ret a).
Proof. intros t. exists []. simpl. now rewrite app_nil_r. Qed.

Lemma quiet_lift {A} (r : result A) : quiet (lift r).
Proof. intros t. exists []. simpl. now rewrite app_nil_r. Qed.

Lemma quiet_log (msg : string) : quiet (emit (LogInfo msg)).
Proof. intros t. now exists [LogInfo msg]. Qed.

Lemma quiet_s3 (bucket key : json) : quiet (emit (S3GetObject bucket key)).
Proof. intros t. now exists [S3GetObject bucket key]. Qed.

Lemma quiet_bind {A B} (m : M A) (k : A -> M B) :
  quiet m -> (forall a, quiet (k a)) -> quiet (bind m k).
Proof.
  intros Hm Hk t. unfold bind.
  destruct (Hm t) as (es & Hes & Hp). destruct (m t) as [[a|e] t']; simpl in *.
  - destruct (Hk a t') as (es' & Hes' & Hp'). exists (es ++ es').
    rewrite Hes', Hes, <- app_assoc, posts_app, Hp, Hp'. now split.
  - now exists es.
Qed.

Create HintDb quiet.
#[local] Hint Resolve quiet_ret quiet_lift quiet_log quiet_s3 : quiet.

Ltac quiet_tac :=
  repeat first
    [ apply quiet_bind; [| intros ?]
    | progress eauto with quiet
    | match goal with |- quiet (let '(_, _) := ?p in _) => destruct p end
    | match goal with |- quiet (if ?b then _ else _) => destruct b end ].

Lemma quiet_item v k : quiet (item v k).
Proof. apply quiet_lift. Qed.

Lemma quiet_item_0 v : quiet (item_0 v).
Proof. apply quiet_lift. Qed.

#[local] Hint Resolve quiet_item quiet_item_0 : quiet.

Lemma quiet_format_data w data : quiet (format_data w data).
Proof. unfold format_data. quiet_tac. Qed.

Lemma quiet_instance_names_loop items acc : quiet (instance_names_loop items acc).
Proof.
  revert acc. induction items as [|x items IH]; intros acc; simpl.
  - apply quiet_ret.
  - apply quiet_bind; [apply quiet_item | intros v; apply IH].
Qed.

#[local] Hint Resolve quiet_instance_names_loop : quiet.

Lemma quiet_extract_record record : quiet (extract_record record).
Proof. unfold extract_record. quiet_tac. Qed.

#[local] Hint Resolve quiet_extract_record : quiet.

Lemma quiet_get_events_loop records ty : quiet (get_events_loop records ty).
Proof.
  induction records as [|r records IH]; simpl.
  - apply quiet_ret.
  - apply quiet_bind; [apply quiet_item | intros v].
    destruct (eq_str v ty); [apply quiet_extract_record | apply IH].
Qed.

#[local] Hint Resolve quiet_get_events_loop : quiet.

Lemma quiet_get_events json_data ty : quiet (get_events json_data ty).
Proof. unfold get_events. quiet_tac. Qed.

(** ** The handler, case by case *)

Lemma update_slack_unfold w username role names t :
  update_slack w username role names t =
  match all_str names with
  | None => (Raise TypeError, t)
  | Some ids =>
      let data := slack_data username role (str_join LF ids) in
      let post := HttpPost (SLACK_URL w) slack_header data in
      match requests_post w (SLACK_URL w) slack_header data with
      | Ok resp =>
          (Ok (status_code resp),
           t ++ [post; LogInfo ("Slack POST returned HTTP code " +:+
                                pretty (status_code resp))])
      | Raise e => (Raise e, t ++ [post])
      end
  end.
Proof.
  unfold update_slack, join, bind, lift, emit, ret.
  destruct (all_str names) as [ids|]; [|reflexivity].
  cbv zeta.
  destruct (requests_post w _ _ _) as [resp|e]; [|reflexivity].
  now rewrite <- app_assoc.
Qed.

Lemma lambda_handler_unfold w event t :
  lambda_handler w event t =
  match format_data w event t with
  | (Raise e, t1) => (Raise e, t1)
  | (Ok json_data, t1) =>
      match get_events json_data "RunInstances" t1 with
      | (Raise e, t2) => (Raise e, t2)
      | (Ok EventNotPresent, t2) => (Ok tt, t2)
      | (Ok (EventFound username role names), t2) =>
          match update_slack w username role names t2 with
          | (Ok _, t3) => (Ok tt, t3)
          | (Raise e, t3) => (Raise e, t3)
          end
      end
  end.
Proof.
  unfold lambda_handler, bind at 1.
  destruct (format_data w event t) as [[json_data|e] t1]; [|reflexivity].
  unfold bind at 1.
  destruct (get_events json_data "RunInstances" t1) as [[ev|e] t2];
    [|reflexivity].
  destruct ev as [username role names|]; [|reflexivity].
  cbn [tuple_0 Z.eqb Pos.eqb]. unfold bind, ret.
  now destruct (update_slack w username role names t2) as [[code|e] t3].
Qed.

(** The POSTs [update_slack] adds: none when an instance name is not a str,
    one otherwise. *)
Lemma update_slack_posts w username role names t :
  posts (snd (update_slack w username role names t)) =
  posts t ++
  match all_str names with
  | None => []
  | Some ids =>
      [HttpPost (SLACK_URL w) slack_header
         (slack_data username role (str_join LF ids))]
  end.
Proof.
  rewrite update_slack_unfold.
  destruct (all_str names) as [ids|]; simpl; [|now rewrite app_nil_r].
  destruct (requests_post w _ _ _) as [resp|e]; simpl;
    now rewrite posts_app.
Qed.

(** ** The scan of the records *)

Lemma eq_str_spec v s : eq_str v s = true <-> v = JStr s.
Proof.
  destruct v; simpl; try (split; [discriminate | intros [=]]).
  rewrite String.eqb_eq. split; [now intros -> | now intros [= ->]].
Qed.

Lemma get_events_loop_skip ty pre rest t :
  forallb (other_event ty) pre = true ->
  get_events_loop (pre ++ rest) ty t = get_events_loop rest ty t.
Proof.
  induction pre as [|r pre IH]; simpl; [reflexivity|].
  intros [Hr Hpre]%andb_prop. rewrite <- (IH Hpre).
  destruct r as [| | | | | |d]; try discriminate Hr. simpl in Hr.
  unfold item, getitem. destruct (d !! "eventName") as [v|]; [|discriminate].
  rewrite bind_lift_ok. apply negb_true_iff in Hr. now rewrite Hr.
Qed.

Lemma get_events_loop_hit ty r rest t :
  is_event ty r = true ->
  get_events_loop (r :: rest) ty t = extract_record r t.
Proof.
  destruct r as [| | | | | |d]; try discriminate. simpl.
  unfold item, getitem. destruct (d !! "eventName") as [v|]; [|discriminate].
  intros Hv. rewrite bind_lift_ok. now rewrite Hv.
Qed.

Lemma get_events_records d records ty t :
  d !! "Records" = Some (JArr records) ->
  get_events (JObj d) ty t = get_events_loop records ty t.
Proof.
  intros Hd. unfold get_events, item, getitem. now rewrite Hd.
Qed.

Lemma get_events_loop_none ty records t :
  forallb (other_event ty) records = true ->
  get_events_loop records ty t = (Ok EventNotPresent, t).
Proof.
  intros H. rewrite <- (app_nil_r records). now rewrite get_events_loop_skip.
Qed.

(** The POSTs of one invocation. *)
Lemma lambda_handler_posts w event t :
  posts (snd (lambda_handler w event t)) =
  posts t ++
  match format_data w event t with
  | (Ok json_data, t1) =>
      match get_events json_data "RunInstances" t1 with
      | (Ok (EventFound username role names), _) =>
          match all_str names with
          | Some ids =>
              [HttpPost (SLACK_URL w) slack_header
                 (slack_data username role (str_join LF ids))]
          | None => []
          end
      | _ => []
      end
  | _ => []
  end.
Proof.
  rewrite lambda_handler_unfold.
  pose proof (quiet_posts _ t (quiet_format_data w event)) as Hf.
  destruct (format_data w event t) as [[json_data|e] t1]; simpl in Hf;
    [|simpl; now rewrite Hf, app_nil_r].
  pose proof (quiet_posts _ t1 (quiet_get_events json_data "RunInstances"))
    as Hg.
  destruct (get_events json_data "RunInstances" t1) as [[ev|e] t2];
    simpl in Hg; [|simpl; now rewrite Hg, Hf, app_nil_r].
  destruct ev as [username role names|];
    [|simpl; now rewrite Hg, Hf, app_nil_r].
  pose proof (update_slack_posts w username role names t2) as Hu.
  destruct (update_slack w username role names t2) as [[code|e] t3];
    simpl in *; now rewrite Hu, Hg, Hf.
Qed.

(** ** The extraction from the record found *)

Lemma instance_names_loop_ok items names acc t :
  Forall2 (fun item_ name => getitem item_ "instanceId" = Ok name)
    items names ->
  instance_names_loop items acc t = (Ok (acc ++ names), t).
Proof.
  intros H. revert acc. induction H as [|x name items names Hx _ IH];
    intros acc; simpl.
  - now rewrite app_nil_r.
  - unfold item. rewrite Hx, bind_lift_ok, IH. now rewrite <- app_assoc.
Qed.

Lemma extract_record_ok rd ui re iset arn a role username items names t :
  rd !! "userIdentity" = Some (JObj ui) ->
  ui !! "arn" = Some (JStr arn) ->
  str_split "/" arn = [a; role; username] ->
  rd !! "responseElements" = Some (JObj re) ->
  re !! "instancesSet" = Some (JObj iset) ->
  iset !! "items" = Some (JArr items) ->
  Forall2 (fun item_ name => getitem item_ "instanceId" = Ok name)
    items names ->
  extract_record (JObj rd) t =
  (Ok (EventFound username role names),
   t ++ [LogInfo "RUNINSTANCES event found.";
         LogInfo ("Assumed Role == " +:+ role +:+ LF +:+
                  "Username == " +:+ username)]).
Proof.
  intros Hui Harn Hsplit Hre Hiset Hitems Hnames.
  unfold extract_record, item, getitem, split_slash, iter.
  unfold bind, lift, emit, ret.
  rewrite Hui, Harn, Hsplit. cbn [unpack3]. cbv beta iota.
  rewrite Hre, Hiset, Hitems, (instance_names_loop_ok _ _ _ _ Hnames).
  now rewrite <- app_assoc.
Qed.

Lemma extract_record_bad_arn rd ui arn t :
  rd !! "userIdentity" = Some (JObj ui) ->
  ui !! "arn" = Some (JStr arn) ->
  List.length (str_split "/" arn) <> 3%nat ->
  extract_record (JObj rd) t =
  (Raise ValueError, t ++ [LogInfo "RUNINSTANCES event found."]).
Proof.
  intros Hui Harn Hlen.
  unfold extract_record, item, getitem, split_slash.
  unfold bind, lift, emit, ret. rewrite Hui, Harn.
  assert (unpack3 (str_split "/" arn) = Raise ValueError) as ->; [|reflexivity].
  destruct (str_split "/" arn) as [|a [|b [|c [|x l]]]]; try reflexivity.
  now contradict Hlen.
Qed.

Lemma all_str_strs (ids : list string) : all_str (JStr <$> ids) = Some ids.
Proof.
  induction ids as [|x ids IH]; [reflexivity|].
  change (cons x <$> all_str (JStr <$> ids) = Some (x :: ids)).
  now rewrite IH.
Qed.

(** ** The claims *)

(** C10: for every trigger event whose [Records] list is empty, the
    invocation faults on [data['Records'][0]] in [format_data], with an
    [IndexError], and the trace is still empty: no object has been read,
    nothing decoded, nothing POSTed. *)
Theorem empty_trigger_faults_first (w : Env) (d : gmap string json) :
  d !! "Records" = Some (JArr []) ->
  run (format_data w (JObj d)) = (Raise IndexError, []) /\
  run (lambda_handler w (JObj d)) = (Raise IndexError, []).
Proof.
  intros Hd.
  assert (run (format_data w (JObj d)) = (Raise IndexError, [])) as Hf.
  { unfold run, format_data, item, getitem. now rewrite Hd. }
  split; [exact Hf|].
  unfold run in *. now rewrite lambda_handler_unfold, Hf.
Qed.

Lemma empty_trigger_faults_first_witness :
  run (format_data empty_log_env (JObj {[ "Records" := JArr [] ]})) =
    (Raise IndexError, []) /\
  run (lambda_handler empty_log_env (JObj {[ "Records" := JArr [] ]})) =
    (Raise IndexError, []).
Proof.
  apply (empty_trigger_faults_first empty_log_env {[ "Records" := JArr [] ]}).
  reflexivity.
Defined.

(** C3: when the [Records] list is empty, and when every record carries an
    [eventName] other than the event looked for, [get_events] returns the
    not-present tuple: it raises nothing and leaves the trace as it was. *)
Theorem not_found_is_returned (ty : string) (d : gmap string json)
    (records : list json) (t : trace) :
  d !! "Records" = Some (JArr records) ->
  records = [] \/ forallb (other_event ty) records = true ->
  get_events (JObj d) ty t = (Ok EventNotPresent, t).
Proof.
  intros Hd Hrecords. rewrite (get_events_records _ _ _ _ Hd).
  apply get_events_loop_none. now destruct Hrecords as [->|H].
Qed.

Lemma not_found_is_returned_witness :
  get_events (JObj {[ "Records" := JArr [JObj other_record; JObj bare_record] ]})
    "RunInstances" [] = (Ok EventNotPresent, []) /\
  get_events (JObj {[ "Records" := JArr [] ]}) "RunInstances" [] =
    (Ok EventNotPresent, []).
Proof.
  split.
  - apply (not_found_is_returned "RunInstances"
             {[ "Records" := JArr [JObj other_record; JObj bare_record] ]}
             [JObj other_record; JObj bare_record] []);
      [reflexivity | right; vm_compute; reflexivity].
  - apply (not_found_is_returned "RunInstances"
             {[ "Records" := JArr [] ]} [] []);
      [reflexivity | left; reflexivity].
Defined.

(** C1 (scenario A): for a log whose one record has the [eventName]
    [RunInstances], the arn [arn:aws:sts::123:assumed-role/Admin/alice] and
    the items [i-1] and [i-2], [get_events] returns the found tuple with
    the username [alice], the role [Admin] and the instance names [i-1],
    [i-2]; given these, [update_slack] POSTs one body, whose attachment has
    for text the two names with a line feed between them. *)
Theorem scenario_A_extraction_and_post
    (log rd ui re iset : gmap string json) (w : Env) (t : trace) :
  log !! "Records" = Some (JArr [JObj rd]) ->
  rd !! "eventName" = Some (JStr "RunInstances") ->
  rd !! "userIdentity" = Some (JObj ui) ->
  ui !! "arn" = Some (JStr "arn:aws:sts::123:assumed-role/Admin/alice") ->
  rd !! "responseElements" = Some (JObj re) ->
  re !! "instancesSet" = Some (JObj iset) ->
  iset !! "items" = Some (JArr [JObj {[ "instanceId" := JStr "i-1" ]};
                               JObj {[ "instanceId" := JStr "i-2" ]}]) ->
  fst (get_events (JObj log) "RunInstances" t) =
    Ok (EventFound "alice" "Admin" [JStr "i-1"; JStr "i-2"]) /\
  exists body attachment,
    posts (snd (update_slack w "alice" "Admin" [JStr "i-1"; JStr "i-2"] t)) =
      posts t ++ [HttpPost (SLACK_URL w) slack_header body] /\
    getitem body "attachments" = Ok (JArr [attachment]) /\
    getitem attachment "text" = Ok (JStr ("i-1" +:+ LF +:+ "i-2")).
Proof.
  intros Hlog Hname Hui Harn Hre Hiset Hitems. split.
  - rewrite (get_events_records _ _ _ _ Hlog), get_events_loop_hit.
    + rewrite (extract_record_ok rd ui re iset _
                 "arn:aws:sts::123:assumed-role" "Admin" "alice" _
                 [JStr "i-1"; JStr "i-2"] t Hui Harn eq_refl Hre Hiset Hitems);
        [reflexivity | repeat constructor].
    + simpl. now rewrite Hname.
  - eexists _, _. rewrite update_slack_posts. simpl all_str. cbv beta iota.
    split; [reflexivity|]. split; reflexivity.
Qed.

Lemma scenario_A_extraction_and_post_witness :
  fst (get_events (JObj scenario_A_log) "RunInstances" []) =
    Ok (EventFound "alice" "Admin" [JStr "i-1"; JStr "i-2"]) /\
  exists body attachment,
    posts (snd (update_slack (scenario_A_env 200) "alice" "Admin"
                  [JStr "i-1"; JStr "i-2"] [])) =
      posts [] ++ [HttpPost (SLACK_URL (scenario_A_env 200)) slack_header body] /\
    getitem body "attachments" = Ok (JArr [attachment]) /\
    getitem attachment "text" = Ok (JStr ("i-1" +:+ LF +:+ "i-2")).
Proof.
  apply (scenario_A_extraction_and_post scenario_A_log scenario_A_record
           {[ "arn" := JStr "arn:aws:sts::123:assumed-role/Admin/alice" ]}
           {[ "instancesSet" :=
                JObj {[ "items" :=
                  JArr [JObj {[ "instanceId" := JStr "i-1" ]};
                        JObj {[ "instanceId" := JStr "i-2" ]}] ]} ]}
           {[ "items" :=
                JArr [JObj {[ "instanceId" := JStr "i-1" ]};
                      JObj {[ "instanceId" := JStr "i-2" ]}] ]}
           (scenario_A_env 200) []); reflexivity.
Defined.

(** C4: when the arn of the first record of the event, split on [/], has
    not exactly three pieces, [get_events] raises: the unpacking of the
    pieces fails with a [ValueError] once the record has been announced in
    the log, and no tuple with a role or a username of any kind comes
    back. *)
Theorem malformed_arn_faults (ty : string) (d rd ui : gmap string json)
    (pre post : list json) (arn : string) (t : trace) :
  d !! "Records" = Some (JArr (pre ++ JObj rd :: post)) ->
  forallb (other_event ty) pre = true ->
  rd !! "eventName" = Some (JStr ty) ->
  rd !! "userIdentity" = Some (JObj ui) ->
  ui !! "arn" = Some (JStr arn) ->
  List.length (str_split "/" arn) <> 3%nat ->
  get_events (JObj d) ty t =
    (Raise ValueError, t ++ [LogInfo "RUNINSTANCES event found."]).
Proof.
  intros Hd Hpre Hname Hui Harn Hlen.
  rewrite (get_events_records _ _ _ _ Hd), get_events_loop_skip by exact Hpre.
  rewrite get_events_loop_hit.
  - now apply (extract_record_bad_arn rd ui arn).
  - simpl. rewrite Hname. simpl. apply String.eqb_refl.
Qed.

Lemma malformed_arn_faults_witness :
  get_events (JObj {[ "Records" := JArr [JObj other_record; JObj iam_user_record] ]})
    "RunInstances" [] =
    (Raise ValueError, [] ++ [LogInfo "RUNINSTANCES event found."]).
Proof.
  apply (malformed_arn_faults "RunInstances"
           {[ "Records" := JArr [JObj other_record; JObj iam_user_record] ]}
           iam_user_record {[ "arn" := JStr "arn:aws:iam::123:user/alice" ]}
           [JObj other_record] [] "arn:aws:iam::123:user/alice" []);
    try reflexivity.
  vm_compute. discriminate.
Defined.

(** C5: [get_events] goes through the records in their order and returns
    what the first record whose [eventName] is exactly the str looked for
    yields; the records after it are not looked at, so dropping them
    changes nothing; a name that differs by case only is another event;
    and one invocation POSTs at most once. *)
Theorem first_matching_record_wins (ty : string) (d rd : gmap string json)
    (pre post : list json) (t : trace) :
  d !! "Records" = Some (JArr (pre ++ JObj rd :: post)) ->
  forallb (other_event ty) pre = true ->
  rd !! "eventName" = Some (JStr ty) ->
  get_events (JObj d) ty t = extract_record (JObj rd) t /\
  get_events (JObj d) ty t =
    get_events (JObj (<[ "Records" := JArr (pre ++ [JObj rd]) ]> d)) ty t /\
  other_event "RunInstances" (JObj {[ "eventName" := JStr "runinstances" ]})
    = true /\
  forall w event,
    (List.length (posts (snd (run (lambda_handler w event)))) <= 1)%nat.
Proof.
  intros Hd Hpre Hname.
  assert (forall rest, get_events_loop (pre ++ JObj rd :: rest) ty t =
                       extract_record (JObj rd) t) as Hscan.
  { intros rest. rewrite get_events_loop_skip by exact Hpre.
    apply get_events_loop_hit. simpl. rewrite Hname. simpl.
    apply String.eqb_refl. }
  split; [|split; [|split]].
  - now rewrite (get_events_records _ _ _ _ Hd).
  - rewrite (get_events_records _ _ _ _ Hd), Hscan.
    erewrite get_events_records by apply lookup_insert_eq. now rewrite Hscan.
  - reflexivity.
  - intros w event. unfold run. rewrite lambda_handler_posts.
    destruct (format_data w event []) as [[json_data|e] t1]; simpl; [|lia].
    destruct (get_events json_data "RunInstances" t1) as [[[u r names|]|e] t2];
      simpl; try lia.
    destruct (all_str names); simpl; lia.
Qed.

Lemma first_matching_record_wins_witness :
  get_events (JObj two_launches_log) "RunInstances" [] =
    extract_record (JObj scenario_A_record) [] /\
  get_events (JObj two_launches_log) "RunInstances" [] =
    get_events
      (JObj (<[ "Records" := JArr ([JObj other_record] ++ [JObj scenario_A_record]) ]>
             two_launches_log)) "RunInstances" [] /\
  other_event "RunInstances" (JObj {[ "eventName" := JStr "runinstances" ]})
    = true /\
  forall w event,
    (List.length (posts (snd (run (lambda_handler w event)))) <= 1)%nat.
Proof.
  apply (first_matching_record_wins "RunInstances" two_launches_log
           scenario_A_record [JObj other_record] [JObj second_launch_record] []);
    reflexivity.
Defined.

(** C9: a record the scan passes over is read at [eventName] and nowhere
    else.  Records that agree, one by one, on [eventName] with records of
    other events are skipped whatever else they hold or lack
    ([userIdentity], [arn], [responseElements], [instanceId]): the scan
    behaves as if it started after them, and returns the not-present tuple
    when nothing follows. *)
Theorem skipped_records_read_eventName_only (ty : string)
    (d : gmap string json) (pre pre' : list (gmap string json))
    (rest : list json) (t : trace) :
  forallb (other_event ty) (JObj <$> pre) = true ->
  Forall2 (fun r r' => r' !! "eventName" = r !! "eventName") pre pre' ->
  get_events (JObj (<[ "Records" := JArr ((JObj <$> pre') ++ rest) ]> d)) ty t =
    get_events (JObj (<[ "Records" := JArr rest ]> d)) ty t /\
  get_events (JObj (<[ "Records" := JArr (JObj <$> pre') ]> d)) ty t =
    (Ok EventNotPresent, t).
Proof.
  intros Hpre Hagree.
  assert (forallb (other_event ty) (JObj <$> pre') = true) as Hpre'.
  { induction Hagree as [|r r' pre pre' Hr _ IH]; [reflexivity|].
    change (other_event ty (JObj r) && forallb (other_event ty) (JObj <$> pre)
            = true) in Hpre.
    apply andb_prop in Hpre as [Hhead Htail].
    change (other_event ty (JObj r') && forallb (other_event ty) (JObj <$> pre')
            = true).
    rewrite (IH Htail), andb_true_r. simpl in *. now rewrite Hr. }
  split.
  - erewrite !get_events_records by apply lookup_insert_eq.
    now apply get_events_loop_skip.
  - erewrite get_events_records by apply lookup_insert_eq.
    now apply get_events_loop_none.
Qed.

Lemma skipped_records_read_eventName_only_witness :
  get_events
    (JObj (<[ "Records" := JArr ((JObj <$> [bare_record]) ++ [JObj scenario_A_record]) ]> ∅))
    "RunInstances" [] =
  get_events (JObj (<[ "Records" := JArr [JObj scenario_A_record] ]> ∅))
    "RunInstances" [] /\
  get_events (JObj (<[ "Records" := JArr (JObj <$> [bare_record]) ]> ∅))
    "RunInstances" [] = (Ok EventNotPresent, []).
Proof.
  apply (skipped_records_read_eventName_only "RunInstances" ∅
           [other_record] [bare_record] [JObj scenario_A_record] []).
  - reflexivity.
  - repeat constructor.
Defined.

(** C6: the instance names are collected in the order of the items, and
    for a username, a role and instance ids, [update_slack] POSTs a body
    with the text [RunInstances event detected.] and one attachment, whose
    author line is [User: <username>], a line feed, [Role: <role>], whose
    title is [Instance Names], whose color is [#FF0000] and whose text is
    the ids joined by line feeds as they come, repeated ids included. *)
Theorem notification_payload (w : Env) (username role : string)
    (items : list json) (ids : list string) (t : trace) :
  Forall2 (fun item_ id => getitem item_ "instanceId" = Ok (JStr id))
    items ids ->
  instance_names_loop items [] t = (Ok (JStr <$> ids), t) /\
  exists data attachment,
    posts (snd (update_slack w username role (JStr <$> ids) t)) =
      posts t ++ [HttpPost (SLACK_URL w) slack_header data] /\
    getitem data "text" = Ok (JStr "RunInstances event detected.") /\
    getitem data "attachments" = Ok (JArr [attachment]) /\
    getitem attachment "author_name" =
      Ok (JStr ("User: " +:+ username +:+ LF +:+ "Role: " +:+ role)) /\
    getitem attachment "title" = Ok (JStr "Instance Names") /\
    getitem attachment "color" = Ok (JStr "#FF0000") /\
    getitem attachment "text" = Ok (JStr (str_join LF ids)).
Proof.
  intros Hitems. split.
  - rewrite (instance_names_loop_ok items (JStr <$> ids) [] t);
      [reflexivity|].
    induction Hitems; constructor; assumption.
  - exists (slack_data username role (str_join LF ids)),
           (slack_attachment username role (str_join LF ids)).
    rewrite update_slack_posts, all_str_strs. repeat split; reflexivity.
Qed.

Lemma notification_payload_witness :
  instance_names_loop
    [JObj {[ "instanceId" := JStr "i-2" ]};
     JObj {[ "instanceId" := JStr "i-1" ]};
     JObj {[ "instanceId" := JStr "i-2" ]}] [] [] =
    (Ok (JStr <$> ["i-2"; "i-1"; "i-2"]), []) /\
  exists data attachment,
    posts (snd (update_slack (scenario_A_env 200) "alice" "Admin"
                  (JStr <$> ["i-2"; "i-1"; "i-2"]) [])) =
      posts [] ++
      [HttpPost (SLACK_URL (scenario_A_env 200)) slack_header data] /\
    getitem data "text" = Ok (JStr "RunInstances event detected.") /\
    getitem data "attachments" = Ok (JArr [attachment]) /\
    getitem attachment "author_name" =
      Ok (JStr ("User: " +:+ "alice" +:+ LF +:+ "Role: " +:+ "Admin")) /\
    getitem attachment "title" = Ok (JStr "Instance Names") /\
    getitem attachment "color" = Ok (JStr "#FF0000") /\
    getitem attachment "text" =
      Ok (JStr (str_join LF ["i-2"; "i-1"; "i-2"])).
Proof.
  apply (notification_payload (scenario_A_env 200) "alice" "Admin"
           [JObj {[ "instanceId" := JStr "i-2" ]};
            JObj {[ "instanceId" := JStr "i-1" ]};
            JObj {[ "instanceId" := JStr "i-2" ]}]
           ["i-2"; "i-1"; "i-2"] []).
  repeat constructor.
Defined.

(** C7: when [requests.post] returns a response, [update_slack] returns
    its status code as it is, whatever the code, 500 included, and raises
    nothing; and an invocation whose extraction succeeded then ends
    without a fault. *)
Theorem status_code_is_returned (w : Env) (event json_data : json)
    (username role : string) (names : list json) (ids : list string)
    (resp : response) (t1 t2 : trace) :
  all_str names = Some ids ->
  requests_post w (SLACK_URL w) slack_header
    (slack_data username role (str_join LF ids)) = Ok resp ->
  run (format_data w event) = (Ok json_data, t1) ->
  get_events json_data "RunInstances" t1 =
    (Ok (EventFound username role names), t2) ->
  (forall t, fst (update_slack w username role names t) =
             Ok (status_code resp)) /\
  fst (run (lambda_handler w event)) = Ok tt.
Proof.
  intros Hnames Hpost Hformat Hget.
  assert (forall t, fst (update_slack w username role names t) =
                    Ok (status_code resp)) as Hupdate.
  { intros t. rewrite update_slack_unfold, Hnames. cbv zeta.
    now rewrite Hpost. }
  split; [exact Hupdate|].
  unfold run in *. rewrite lambda_handler_unfold, Hformat, Hget.
  specialize (Hupdate t2).
  destruct (update_slack w username role names t2) as [[code|e] t3];
    [reflexivity | discriminate Hupdate].
Qed.

Lemma status_code_is_returned_witness :
  (forall t, fst (update_slack (scenario_A_env 500) "alice" "Admin"
                    [JStr "i-1"; JStr "i-2"] t) = Ok 500) /\
  fst (run (lambda_handler (scenario_A_env 500) trail_event)) = Ok tt.
Proof.
  apply (status_code_is_returned (scenario_A_env 500) trail_event
           (JObj scenario_A_log) "alice" "Admin" [JStr "i-1"; JStr "i-2"]
           ["i-1"; "i-2"] {| status_code := 500 |}
           [S3GetObject (JStr "logs") (JStr "trail.json.gz")]
           [S3GetObject (JStr "logs") (JStr "trail.json.gz");
            LogInfo "RUNINSTANCES event found.";
            LogInfo ("Assumed Role == Admin" +:+ LF +:+ "Username == alice")]);
    vm_compute; reflexivity.
Defined.

(** ** The outcomes of an invocation *)

Section Outcomes.
Variables (w : Env) (event json_data : json) (t1 t2 : trace).
Hypothesis Hformat : run (format_data w event) = (Ok json_data, t1).

Lemma handler_format_trace : posts t1 = [].
Proof.
  pose proof (quiet_posts _ [] (quiet_format_data w event)) as Hq.
  unfold run in Hformat. now rewrite Hformat in Hq.
Qed.

Lemma handler_get_events_trace r :
  get_events json_data "RunInstances" t1 = (r, t2) -> posts t2 = [].
Proof.
  intros Hget.
  pose proof (quiet_posts _ t1 (quiet_get_events json_data "RunInstances"))
    as Hq.
  rewrite Hget in Hq. simpl in Hq. now rewrite Hq, handler_format_trace.
Qed.

Lemma handler_not_present :
  get_events json_data "RunInstances" t1 = (Ok EventNotPresent, t2) ->
  run (lambda_handler w event) = (Ok tt, t2).
Proof.
  intros Hget. unfold run in *.
  now rewrite lambda_handler_unfold, Hformat, Hget.
Qed.

Lemma handler_get_events_raises e :
  get_events json_data "RunInstances" t1 = (Raise e, t2) ->
  run (lambda_handler w event) = (Raise e, t2).
Proof.
  intros Hget. unfold run in *.
  now rewrite lambda_handler_unfold, Hformat, Hget.
Qed.

Lemma handler_found_posts username role names ids :
  get_events json_data "RunInstances" t1 =
    (Ok (EventFound username role names), t2) ->
  all_str names = Some ids ->
  posts (snd (run (lambda_handler w event))) =
    [HttpPost (SLACK_URL w) slack_header
       (slack_data username role (str_join LF ids))].
Proof.
  intros Hget Hnames. unfold run in *.
  now rewrite lambda_handler_posts, Hformat, Hget, Hnames.
Qed.

Lemma handler_found_not_str username role names :
  get_events json_data "RunInstances" t1 =
    (Ok (EventFound username role names), t2) ->
  all_str names = None ->
  run (lambda_handler w event) = (Raise TypeError, t2).
Proof.
  intros Hget Hnames. unfold run in *.
  now rewrite lambda_handler_unfold, Hformat, Hget, update_slack_unfold,
    Hnames.
Qed.
End Outcomes.

Lemma handler_format_raises w event e t1 :
  run (format_data w event) = (Raise e, t1) ->
  run (lambda_handler w event) = (Raise e, t1) /\ posts t1 = [].
Proof.
  intros Hformat.
  pose proof (quiet_posts _ [] (quiet_format_data w event)) as Hq.
  unfold run in *. now rewrite lambda_handler_unfold, Hformat in *.
Qed.

Lemma handler_posts_only_if_found w event :
  posts (snd (run (lambda_handler w event))) <> [] ->
  exists json_data t1 username role names t2,
    run (format_data w event) = (Ok json_data, t1) /\
    get_events json_data "RunInstances" t1 =
      (Ok (EventFound username role names), t2).
Proof.
  unfold run. rewrite lambda_handler_posts.
  destruct (format_data w event []) as [[json_data|e] t1]; [|now intros []].
  destruct (get_events json_data "RunInstances" t1)
    as [[[username role names|]|e] t2] eqn:Hget; try now intros [].
  intros _. now exists json_data, t1, username, role, names, t2.
Qed.

(** C8, as the module has it: an invocation POSTs only when [get_events]
    found the event, and then POSTs once when the instance names are all
    strs; when one of them is not a str, [update_slack] raises on joining
    them and nothing is POSTed.  When no record matches, the invocation
    ends without a fault and without a POST; when [format_data] (fetch and
    decode) or [get_events] raises, the invocation raises the same
    exception and nothing has been POSTed. *)
Theorem post_iff_match (w : Env) (event : json) :
  (posts (snd (run (lambda_handler w event))) <> [] ->
   exists json_data t1 username role names t2,
     run (format_data w event) = (Ok json_data, t1) /\
     get_events json_data "RunInstances" t1 =
       (Ok (EventFound username role names), t2)) /\
  (forall json_data t1 username role names ids t2,
     run (format_data w event) = (Ok json_data, t1) ->
     get_events json_data "RunInstances" t1 =
       (Ok (EventFound username role names), t2) ->
     all_str names = Some ids ->
     posts (snd (run (lambda_handler w event))) =
       [HttpPost (SLACK_URL w) slack_header
          (slack_data username role (str_join LF ids))]) /\
  (forall json_data t1 username role names t2,
     run (format_data w event) = (Ok json_data, t1) ->
     get_events json_data "RunInstances" t1 =
       (Ok (EventFound username role names), t2) ->
     all_str names = None ->
     run (lambda_handler w event) = (Raise TypeError, t2) /\ posts t2 = []) /\
  (forall json_data t1 t2,
     run (format_data w event) = (Ok json_data, t1) ->
     get_events json_data "RunInstances" t1 = (Ok EventNotPresent, t2) ->
     run (lambda_handler w event) = (Ok tt, t2) /\ posts t2 = []) /\
  (forall e t1,
     run (format_data w event) = (Raise e, t1) ->
     run (lambda_handler w event) = (Raise e, t1) /\ posts t1 = []) /\
  (forall json_data t1 e t2,
     run (format_data w event) = (Ok json_data, t1) ->
     get_events json_data "RunInstances" t1 = (Raise e, t2) ->
     run (lambda_handler w event) = (Raise e, t2) /\ posts t2 = []).
Proof.
  split; [apply handler_posts_only_if_found|].
  split.
  { intros * Hformat Hget Hnames.
    eapply handler_found_posts; eassumption. }
  split.
  { intros * Hformat Hget Hnames. split.
    - now apply (handler_found_not_str w event json_data t1 t2 Hformat
                   username role names).
    - exact (handler_get_events_trace w event json_data t1 t2 Hformat _ Hget). }
  split.
  { intros * Hformat Hget. split.
    - now apply (handler_not_present w event json_data t1 t2).
    - exact (handler_get_events_trace w event json_data t1 t2 Hformat _ Hget). }
  split; [intros *; apply handler_format_raises|].
  intros * Hformat Hget. split.
  - now apply (handler_get_events_raises w event json_data t1 t2).
  - exact (handler_get_events_trace w event json_data t1 t2 Hformat _ Hget).
Qed.

Lemma post_iff_match_witness :
  posts (snd (run (lambda_handler (scenario_A_env 200) trail_event))) =
    [HttpPost (SLACK_URL (scenario_A_env 200)) slack_header
       (slack_data "alice" "Admin" (str_join LF ["i-1"; "i-2"]))] /\
  (run (lambda_handler empty_log_env trail_event) =
     (Raise (KeyError (JStr "Records")),
      [S3GetObject (JStr "logs") (JStr "trail.json.gz")]) /\
   posts [S3GetObject (JStr "logs") (JStr "trail.json.gz")] = []).
Proof.
  split.
  - apply (proj1 (proj2 (post_iff_match (scenario_A_env 200) trail_event))
             (JObj scenario_A_log)
             [S3GetObject (JStr "logs") (JStr "trail.json.gz")]
             "alice" "Admin" [JStr "i-1"; JStr "i-2"] ["i-1"; "i-2"]
             [S3GetObject (JStr "logs") (JStr "trail.json.gz");
              LogInfo "RUNINSTANCES event found.";
              LogInfo ("Assumed Role == Admin" +:+ LF +:+ "Username == alice")]);
      vm_compute; reflexivity.
  - apply (proj2 (proj2 (proj2 (proj2 (proj2
             (post_iff_match empty_log_env trail_event)))))
             (JObj ∅) [S3GetObject (JStr "logs") (JStr "trail.json.gz")]
             (KeyError (JStr "Records"))
             [S3GetObject (JStr "logs") (JStr "trail.json.gz")]);
      vm_compute; reflexivity.
Defined.

(** C8, as it is stated, fails: on a log whose launch record carries the
    instance id 7, a number, [get_events] finds the event, [update_slack]
    raises on the join, and the invocation ends in a [TypeError] with
    nothing POSTed. *)
Lemma match_found_and_no_post :
  run (format_data numeric_id_env trail_event) =
    (Ok (JObj numeric_id_log),
     [S3GetObject (JStr "logs") (JStr "trail.json.gz")]) /\
  fst (get_events (JObj numeric_id_log) "RunInstances"
         [S3GetObject (JStr "logs") (JStr "trail.json.gz")]) =
    Ok (EventFound "alice" "Admin" [JInt 7]) /\
  fst (run (lambda_handler numeric_id_env trail_event)) = Raise TypeError /\
  posts (snd (run (lambda_handler numeric_id_env trail_event))) = [].
Proof. repeat split; vm_compute; reflexivity. Qed.

(** C2, as the module has it: [format_data] does not look for [Records];
    it returns the parsed document whole.  When that document is a dict
    without [Records], the first access of [get_events] raises a
    [KeyError] before a record is looked at or a line logged, and the
    invocation raises it in turn, with nothing POSTed. *)
Theorem missing_Records_faults_in_get_events (w : Env) (event : json)
    (d : gmap string json) (t1 : trace) :
  run (format_data w event) = (Ok (JObj d), t1) ->
  d !! "Records" = None ->
  get_events (JObj d) "RunInstances" t1 =
    (Raise (KeyError (JStr "Records")), t1) /\
  run (lambda_handler w event) = (Raise (KeyError (JStr "Records")), t1) /\
  posts t1 = [].
Proof.
  intros Hformat Hd.
  assert (get_events (JObj d) "RunInstances" t1 =
          (Raise (KeyError (JStr "Records")), t1)) as Hget.
  { unfold get_events, item, getitem. now rewrite Hd. }
  split; [exact Hget|]. split.
  - unfold run in *. now rewrite lambda_handler_unfold, Hformat, Hget.
  - pose proof (quiet_posts _ [] (quiet_format_data w event)) as Hq.
    unfold run in Hformat. now rewrite Hformat in Hq.
Qed.

Lemma missing_Records_faults_in_get_events_witness :
  get_events (JObj ∅) "RunInstances"
    [S3GetObject (JStr "logs") (JStr "trail.json.gz")] =
    (Raise (KeyError (JStr "Records")),
     [S3GetObject (JStr "logs") (JStr "trail.json.gz")]) /\
  run (lambda_handler empty_log_env trail_event) =
    (Raise (KeyError (JStr "Records")),
     [S3GetObject (JStr "logs") (JStr "trail.json.gz")]) /\
  posts [S3GetObject (JStr "logs") (JStr "trail.json.gz")] = [].
Proof.
  apply (missing_Records_faults_in_get_events empty_log_env trail_event ∅
           [S3GetObject (JStr "logs") (JStr "trail.json.gz")]);
    vm_compute; reflexivity.
Defined.

(** C2, as it is stated, fails: on the gzip of the text of the empty
    object the decode step raises nothing; [format_data] returns the
    document, in which [Records] is absent. *)
Lemma decode_accepts_log_without_Records :
  run (format_data empty_log_env trail_event) =
    (Ok (JObj ∅), [S3GetObject (JStr "logs") (JStr "trail.json.gz")]) /\
  getitem (JObj ∅) "Records" = Raise (KeyError (JStr "Records")).
Proof. split; vm_compute; reflexivity. Qed.

(** ** The strs the module splits and joins *)

Lemma str_split_not_nil c s : str_split c s <> [].
Proof.
  destruct s as [|c' s]; simpl; [discriminate|].
  destruct (Ascii.eqb c' c); [discriminate|].
  destruct (str_split c s); discriminate.
Qed.

Lemma str_split_length c s :
  List.length (str_split c s) = S (count_char c s).
Proof.
  induction s as [|c' s IH]; simpl; [reflexivity|].
  destruct (Ascii.eqb c' c); simpl; [now rewrite IH|].
  destruct (str_split c s) as [|p ps]; [discriminate IH | exact IH].
Qed.

Lemma str_join_split c s : str_join (String c "") (str_split c s) = s.
Proof.
  induction s as [|c' s IH]; simpl; [reflexivity|].
  destruct (Ascii.eqb c' c) eqn:Hc.
  - apply Ascii.eqb_eq in Hc as ->.
    pose proof (str_split_not_nil c s) as Hne.
    destruct (str_split c s) as [|p ps]; [contradiction|].
    simpl in *. now rewrite IH.
  - pose proof (str_split_not_nil c s) as Hne.
    destruct (str_split c s) as [|p ps]; [contradiction|].
    destruct ps as [|q ps]; simpl in *; now rewrite <- IH.
Qed.

Lemma str_split_pieces c s :
  Forall (fun piece => count_char c piece = 0%nat) (str_split c s).
Proof.
  induction s as [|c' s IH]; simpl; [now repeat constructor|].
  destruct (Ascii.eqb c' c) eqn:Hc; [now constructor|].
  destruct (str_split c s) as [|p ps]; [repeat constructor; simpl; now rewrite Hc|].
  inversion IH as [|? ? Hp Hps]; subst. constructor; [|exact Hps].
  simpl. now rewrite Hc.
Qed.

Lemma str_split_free c s : count_char c s = 0%nat -> str_split c s = [s].
Proof.
  induction s as [|c' s IH]; simpl; [reflexivity|].
  destruct (Ascii.eqb c' c); [discriminate|]. simpl. intros H.
  now rewrite (IH H).
Qed.

Lemma str_split_app c piece rest :
  count_char c piece = 0%nat ->
  str_split c (piece +:+ String c rest) = piece :: str_split c rest.
Proof.
  induction piece as [|c' piece IH]; simpl.
  - intros _. now rewrite Ascii.eqb_refl.
  - destruct (Ascii.eqb c' c); [discriminate|]. simpl. intros H.
    now rewrite (IH H).
Qed.

Lemma str_split_join c l :
  l <> [] ->
  Forall (fun piece => count_char c piece = 0%nat) l ->
  str_split c (str_join (String c "") l) = l.
Proof.
  intros Hne Hl. induction Hl as [|p l Hp Hl IH]; [contradiction|].
  destruct l as [|q l].
  - simpl. now apply str_split_free.
  - change (str_join (String c "") (p :: q :: l))
      with (p +:+ String c (str_join (String c "") (q :: l))).
    rewrite str_split_app by exact Hp. now rewrite IH.
Qed.

(** ** The fetch and the decoding *)

Lemma format_data_unfold w data t :
  format_data w data t =
  match event_bucket data with
  | Raise e => (Raise e, t)
  | Ok bucket =>
      match event_key data with
      | Raise e => (Raise e, t)
      | Ok key => (fetch_decode w bucket key, t ++ [S3GetObject bucket key])
      end
  end.
Proof.
  unfold format_data, event_bucket, event_key, fetch_decode, item, item_0.
  unfold bind, lift, emit, ret, and_then.
  destruct (getitem data "Records") as [records|]; [|reflexivity].
  destruct (getitem_0 records) as [record|]; [|reflexivity].
  destruct (getitem record "s3") as [s3|]; [|reflexivity].
  destruct (getitem s3 "bucket") as [bucket_d|]; [|reflexivity].
  destruct (getitem bucket_d "name") as [bucket|]; [|reflexivity].
  destruct (getitem s3 "object") as [object_d|]; [|reflexivity].
  destruct (getitem object_d "key") as [key|]; [|reflexivity].
  destruct (s3_get_object w bucket key) as [resp|]; [|reflexivity].
  destruct (Body_read resp) as [body|]; [|reflexivity].
  destruct (gzip_read w body) as [unzipped|]; [|reflexivity].
  destruct (decode_utf8 w unzipped) as [data_str|]; [|reflexivity].
  now destruct (json_loads w data_str).
Qed.

(** X1: [format_data] touches the outside world at most once: when the
    bucket name and the key can be read off the first record of the event
    it makes one call of [s3.get_object], for that bucket and key, and
    when either cannot it makes none; it logs nothing and POSTs
    nothing. *)
Theorem format_data_reads_once (w : Env) (data : json) :
  snd (run (format_data w data)) =
  match event_bucket data, event_key data with
  | Ok bucket, Ok key => [S3GetObject bucket key]
  | _, _ => []
  end.
Proof.
  unfold run. rewrite format_data_unfold.
  destruct (event_bucket data); [|reflexivity].
  now destruct (event_key data).
Qed.

(** X2: once the event names a bucket and a key, an exception raised by
    [s3.get_object], by the read of the body, by the gunzip, by the UTF-8
    decoding or by [json.loads] comes out of [format_data] and of
    [lambda_handler] as it is; the call of [s3.get_object] is the only
    effect of the invocation, which POSTs nothing. *)
Theorem fetch_decode_fault_propagates (w : Env) (data bucket key : json)
    (e : exn) :
  event_bucket data = Ok bucket ->
  event_key data = Ok key ->
  fetch_decode w bucket key = Raise e ->
  run (format_data w data) = (Raise e, [S3GetObject bucket key]) /\
  run (lambda_handler w data) = (Raise e, [S3GetObject bucket key]).
Proof.
  intros Hbucket Hkey Hfetch.
  assert (run (format_data w data) = (Raise e, [S3GetObject bucket key]))
    as Hformat.
  { unfold run. now rewrite format_data_unfold, Hbucket, Hkey, Hfetch. }
  split; [exact Hformat|].
  unfold run in *. now rewrite lambda_handler_unfold, Hformat.
Qed.

Lemma fetch_decode_fault_propagates_witness :
  run (format_data empty_log_env missing_object_event) =
    (Raise (LibraryError "NoSuchKey"),
     [S3GetObject (JStr "logs") (JStr "gone.json.gz")]) /\
  run (lambda_handler empty_log_env missing_object_event) =
    (Raise (LibraryError "NoSuchKey"),
     [S3GetObject (JStr "logs") (JStr "gone.json.gz")]).
Proof.
  apply (fetch_decode_fault_propagates empty_log_env missing_object_event
           (JStr "logs") (JStr "gone.json.gz") (LibraryError "NoSuchKey"));
    reflexivity.
Defined.

(** X3: of the records of the S3 event only the first is used: the other
    records of an event change neither what [format_data] returns nor
    what the invocation does. *)
Theorem only_first_trigger_record (w : Env) (d : gmap string json)
    (record : json) (rest : list json) :
  d !! "Records" = Some (JArr (record :: rest)) ->
  run (format_data w (JObj d)) =
    run (format_data w (JObj (<[ "Records" := JArr [record] ]> d))) /\
  run (lambda_handler w (JObj d)) =
    run (lambda_handler w (JObj (<[ "Records" := JArr [record] ]> d))).
Proof.
  intros Hd.
  assert (forall t, format_data w (JObj d) t =
            format_data w (JObj (<[ "Records" := JArr [record] ]> d)) t)
    as Hformat.
  { intros t. rewrite !format_data_unfold. unfold event_bucket, event_key.
    assert (getitem (JObj d) "Records" = Ok (JArr (record :: rest))) as ->
      by (simpl; now rewrite Hd).
    assert (getitem (JObj (<[ "Records" := JArr [record] ]> d)) "Records" =
            Ok (JArr [record])) as ->
      by (simpl; now rewrite lookup_insert_eq).
    reflexivity. }
  split; [apply Hformat|].
  unfold run. now rewrite !lambda_handler_unfold, Hformat.
Qed.

Lemma only_first_trigger_record_witness :
  run (format_data (scenario_A_env 200) two_objects_event) =
    run (format_data (scenario_A_env 200)
           (JObj (<[ "Records" := JArr [trail_trigger_record] ]>
                  {[ "Records" := JArr [trail_trigger_record; other_trigger_record] ]}))) /\
  run (lambda_handler (scenario_A_env 200) two_objects_event) =
    run (lambda_handler (scenario_A_env 200)
           (JObj (<[ "Records" := JArr [trail_trigger_record] ]>
                  {[ "Records" := JArr [trail_trigger_record; other_trigger_record] ]}))).
Proof.
  apply (only_first_trigger_record (scenario_A_env 200)
           {[ "Records" := JArr [trail_trigger_record; other_trigger_record] ]}
           trail_trigger_record [other_trigger_record]).
  reflexivity.
Defined.

(** ** What a result of [get_events] tells about the log *)

Lemma instance_names_loop_inv items acc names t t' :
  instance_names_loop items acc t = (Ok names, t') ->
  t' = t /\
  exists new, names = acc ++ new /\
    Forall2 (fun item_ name => getitem item_ "instanceId" = Ok name)
      items new.
Proof.
  revert acc. induction items as [|x items IH]; intros acc; simpl.
  - intros [= <- <-]. split; [reflexivity|]. exists [].
    now rewrite app_nil_r.
  - unfold item, bind, lift.
    destruct (getitem x "instanceId") as [v|e] eqn:Hx; [|discriminate].
    intros H. destruct (IH _ H) as (-> & new & -> & Hnew).
    split; [reflexivity|]. exists (v :: new).
    rewrite <- app_assoc. split; [reflexivity|]. now constructor.
Qed.

Lemma instance_names_loop_fault items ids item_ rest acc e t :
  Forall2 (fun item_ name => getitem item_ "instanceId" = Ok name)
    items ids ->
  getitem item_ "instanceId" = Raise e ->
  instance_names_loop (items ++ item_ :: rest) acc t = (Raise e, t).
Proof.
  intros Hitems Hitem. revert acc.
  induction Hitems as [|x name items ids Hx _ IH]; intros acc; simpl;
    unfold item, bind, lift.
  - now rewrite Hitem.
  - rewrite Hx. apply IH.
Qed.

Lemma extract_record_inv record username role names t t' :
  extract_record record t = (Ok (EventFound username role names), t') ->
  exists user_identity arn a response_elements instances_set instances items,
    getitem record "userIdentity" = Ok user_identity /\
    getitem user_identity "arn" = Ok (JStr arn) /\
    str_split "/" arn = [a; role; username] /\
    getitem record "responseElements" = Ok response_elements /\
    getitem response_elements "instancesSet" = Ok instances_set /\
    getitem instances_set "items" = Ok instances /\
    iter instances = Ok items /\
    Forall2 (fun item_ name => getitem item_ "instanceId" = Ok name)
      items names /\
    t' = t ++ [LogInfo "RUNINSTANCES event found.";
               LogInfo ("Assumed Role == " +:+ role +:+ LF +:+
                        "Username == " +:+ username)].
Proof.
  unfold extract_record, item. unfold bind, lift, emit, ret.
  destruct (getitem record "userIdentity") as [ui|] eqn:Hui; [|discriminate].
  destruct (getitem ui "arn") as [arnv|] eqn:Harn; [|discriminate].
  destruct arnv as [| | | |arn| |]; try discriminate. simpl split_slash.
  destruct (str_split "/" arn) as [|a [|b [|c [|x l]]]] eqn:Hsplit;
    try discriminate.
  cbn [unpack3]. cbv beta iota.
  destruct (getitem record "responseElements") as [re|] eqn:Hre;
    [|discriminate].
  destruct (getitem re "instancesSet") as [iset|] eqn:Hiset; [|discriminate].
  destruct (getitem iset "items") as [instances|] eqn:Hitems; [|discriminate].
  destruct (iter instances) as [items|] eqn:Hiter; [|discriminate].
  destruct (instance_names_loop items [] _) as [[names'|] t''] eqn:Hloop;
    [|discriminate].
  intros [= <- <- <- <-].
  destruct (instance_names_loop_inv _ _ _ _ _ Hloop) as (-> & new & -> & Hnew).
  exists ui, arn, a, re, iset, instances, items.
  rewrite <- app_assoc. now repeat split.
Qed.

Lemma get_events_loop_found_inv records ty username role names t t' :
  get_events_loop records ty t = (Ok (EventFound username role names), t') ->
  exists pre rd post,
    records = pre ++ JObj rd :: post /\
    forallb (other_event ty) pre = true /\
    rd !! "eventName" = Some (JStr ty) /\
    extract_record (JObj rd) t = (Ok (EventFound username role names), t').
Proof.
  induction records as [|record records IH]; simpl; [discriminate|].
  unfold item, bind, lift.
  destruct (getitem record "eventName") as [v|] eqn:Hname; [|discriminate].
  destruct record as [| | | | | |rd]; try discriminate. simpl in Hname.
  destruct (rd !! "eventName") as [v'|] eqn:Hrd; [|discriminate].
  injection Hname as ->.
  destruct (eq_str v ty) eqn:Hv.
  - apply eq_str_spec in Hv as ->. intros Hextract.
    now exists [], rd, records.
  - intros H. destruct (IH H) as (pre & rd' & post & -> & Hpre & Hrd' & Hex).
    exists (JObj rd :: pre), rd', post. repeat split; try assumption.
    simpl. now rewrite Hrd, Hv, Hpre.
Qed.

Lemma get_events_loop_none_inv records ty t t' :
  get_events_loop records ty t = (Ok EventNotPresent, t') ->
  forallb (other_event ty) records = true /\ t' = t.
Proof.
  induction records as [|record records IH]; simpl.
  - now intros [= <-].
  - unfold item, bind, lift.
    destruct (getitem record "eventName") as [v|] eqn:Hname; [|discriminate].
    destruct record as [| | | | | |rd]; try discriminate. simpl in Hname.
    destruct (rd !! "eventName") as [v'|] eqn:Hrd; [|discriminate].
    injection Hname as ->.
    destruct (eq_str v ty) eqn:Hv.
    + intros H. unfold extract_record, item in H.
      unfold bind, lift, emit, ret in H.
      repeat match type of H with
             | context [match ?r with _ => _ end] =>
                 destruct r; try discriminate H
             end.
    + intros H. destruct (IH H) as [Hrest ->]. split; [|reflexivity].
      simpl. now rewrite Hrd, Hv, Hrest.
Qed.

Lemma get_events_inv json_data ty ev t t' :
  get_events json_data ty t = (Ok ev, t') ->
  exists records_v records,
    getitem json_data "Records" = Ok records_v /\
    iter records_v = Ok records /\
    get_events_loop records ty t = (Ok ev, t').
Proof.
  unfold get_events, item. unfold bind at 1 2, lift.
  destruct (getitem json_data "Records") as [records_v|] eqn:Hrecords;
    [|discriminate].
  destruct (iter records_v) as [records|] eqn:Hiter; [|discriminate].
  intros H. now exists records_v, records.
Qed.

Lemma get_events_at ty d pre rd post t :
  d !! "Records" = Some (JArr (pre ++ JObj rd :: post)) ->
  forallb (other_event ty) pre = true ->
  rd !! "eventName" = Some (JStr ty) ->
  get_events (JObj d) ty t = extract_record (JObj rd) t.
Proof.
  intros Hd Hpre Hname.
  rewrite (get_events_records _ _ _ _ Hd), get_events_loop_skip by exact Hpre.
  apply get_events_loop_hit. simpl. rewrite Hname. simpl.
  apply String.eqb_refl.
Qed.

(** X4: over a list of records, [get_events] returns the not-present
    tuple exactly when every record is a dict whose [eventName] is there
    and differs from the event looked for; it is never what a log with a
    matching record, or with a record that cannot be tested, comes to. *)
Theorem not_present_iff_all_other (ty : string) (d : gmap string json)
    (records : list json) (t : trace) :
  d !! "Records" = Some (JArr records) ->
  (exists t', get_events (JObj d) ty t = (Ok EventNotPresent, t')) <->
  forallb (other_event ty) records = true.
Proof.
  intros Hd. rewrite (get_events_records _ _ _ _ Hd). split.
  - intros [t' H]. now apply get_events_loop_none_inv in H.
  - intros H. exists t. now apply get_events_loop_none.
Qed.

Lemma not_present_iff_all_other_witness :
  (exists t', get_events (JObj two_launches_log) "RunInstances" [] =
                (Ok EventNotPresent, t')) <->
  forallb (other_event "RunInstances")
    [JObj other_record; JObj scenario_A_record; JObj second_launch_record]
    = true.
Proof.
  apply (not_present_iff_all_other "RunInstances" two_launches_log
           [JObj other_record; JObj scenario_A_record;
            JObj second_launch_record] []).
  reflexivity.
Defined.

(** X5: a found tuple is never made up.  When [get_events] returns
    [(1, username, role, instance_names)], the log has a record whose
    [eventName] is the event looked for, behind records of other events
    only; the arn of that record is some prefix, [/], the role, [/], the
    username, with no other [/] in it; the instance names are the
    [instanceId]s of its items, one for one and in their order; and two
    lines, no more, have been logged. *)
Theorem found_comes_from_the_log (json_data : json) (ty username role : string)
    (names : list json) (t t' : trace) :
  get_events json_data ty t = (Ok (EventFound username role names), t') ->
  exists records_v pre rd post user_identity a instances items,
    getitem json_data "Records" = Ok records_v /\
    iter records_v = Ok (pre ++ JObj rd :: post) /\
    forallb (other_event ty) pre = true /\
    rd !! "eventName" = Some (JStr ty) /\
    rd !! "userIdentity" = Some user_identity /\
    getitem user_identity "arn" =
      Ok (JStr (a +:+ "/" +:+ role +:+ "/" +:+ username)) /\
    count_char "/" a = 0%nat /\
    count_char "/" role = 0%nat /\
    count_char "/" username = 0%nat /\
    and_then (getitem (JObj rd) "responseElements") (fun response_elements =>
      and_then (getitem response_elements "instancesSet") (fun instances_set =>
        getitem instances_set "items")) = Ok instances /\
    iter instances = Ok items /\
    Forall2 (fun item_ name => getitem item_ "instanceId" = Ok name)
      items names /\
    t' = t ++ [LogInfo "RUNINSTANCES event found.";
               LogInfo ("Assumed Role == " +:+ role +:+ LF +:+
                        "Username == " +:+ username)].
Proof.
  intros H.
  destruct (get_events_inv _ _ _ _ _ H) as (records_v & records & Hrv & Hiter & Hloop).
  destruct (get_events_loop_found_inv _ _ _ _ _ _ _ Hloop)
    as (pre & rd & post & -> & Hpre & Hname & Hextract).
  destruct (extract_record_inv _ _ _ _ _ _ Hextract)
    as (ui & arn & a & re & iset & instances & items & Hui & Harn & Hsplit
        & Hre & Hiset & Hitems & Hit & Hnames & ->).
  pose proof (str_join_split "/" arn) as Hjoin.
  pose proof (str_split_pieces "/" arn) as Hpieces.
  rewrite Hsplit in Hjoin, Hpieces.
  change (a +:+ "/" +:+ role +:+ "/" +:+ username = arn) in Hjoin.
  apply Forall_cons in Hpieces as [Ha Hpieces].
  apply Forall_cons in Hpieces as [Hrole Hpieces].
  apply Forall_cons in Hpieces as [Husername _].
  exists records_v, pre, rd, post, ui, a, instances, items.
  simpl in Hui. destruct (rd !! "userIdentity") as [ui'|] eqn:Hrd;
    [|discriminate]. injection Hui as ->.
  rewrite Hjoin. repeat split; try assumption.
  unfold and_then. now rewrite Hre, Hiset.
Qed.

Lemma found_comes_from_the_log_witness :
  exists records_v pre rd post user_identity a instances items,
    getitem (JObj two_launches_log) "Records" = Ok records_v /\
    iter records_v = Ok (pre ++ JObj rd :: post) /\
    forallb (other_event "RunInstances") pre = true /\
    rd !! "eventName" = Some (JStr "RunInstances") /\
    rd !! "userIdentity" = Some user_identity /\
    getitem user_identity "arn" =
      Ok (JStr (a +:+ "/" +:+ "Admin" +:+ "/" +:+ "alice")) /\
    count_char "/" a = 0%nat /\
    count_char "/" "Admin" = 0%nat /\
    count_char "/" "alice" = 0%nat /\
    and_then (getitem (JObj rd) "responseElements") (fun response_elements =>
      and_then (getitem response_elements "instancesSet") (fun instances_set =>
        getitem instances_set "items")) = Ok instances /\
    iter instances = Ok items /\
    Forall2 (fun item_ name => getitem item_ "instanceId" = Ok name)
      items [JStr "i-1"; JStr "i-2"] /\
    [LogInfo "RUNINSTANCES event found.";
     LogInfo ("Assumed Role == Admin" +:+ LF +:+ "Username == alice")] =
    [] ++ [LogInfo "RUNINSTANCES event found.";
           LogInfo ("Assumed Role == " +:+ "Admin" +:+ LF +:+
                    "Username == " +:+ "alice")].
Proof.
  apply (found_comes_from_the_log (JObj two_launches_log) "RunInstances"
           "alice" "Admin" [JStr "i-1"; JStr "i-2"] []).
  vm_compute. reflexivity.
Defined.

(** X6: the arn is taken apart as it was put together.  For the first
    record of the event looked for, whose arn is a prefix, [/], a role,
    [/] and a username, none of the three holding a [/], and whose items
    all have an [instanceId], [get_events] returns that username, that
    role and the ids of the items, whatever the prefix. *)
Theorem arn_parts_are_extracted (ty : string)
    (d rd ui re iset : gmap string json) (pre post items names : list json)
    (a role username : string) (t : trace) :
  d !! "Records" = Some (JArr (pre ++ JObj rd :: post)) ->
  forallb (other_event ty) pre = true ->
  rd !! "eventName" = Some (JStr ty) ->
  rd !! "userIdentity" = Some (JObj ui) ->
  ui !! "arn" = Some (JStr (a +:+ "/" +:+ role +:+ "/" +:+ username)) ->
  count_char "/" a = 0%nat ->
  count_char "/" role = 0%nat ->
  count_char "/" username = 0%nat ->
  rd !! "responseElements" = Some (JObj re) ->
  re !! "instancesSet" = Some (JObj iset) ->
  iset !! "items" = Some (JArr items) ->
  Forall2 (fun item_ name => getitem item_ "instanceId" = Ok name)
    items names ->
  get_events (JObj d) ty t =
    (Ok (EventFound username role names),
     t ++ [LogInfo "RUNINSTANCES event found.";
           LogInfo ("Assumed Role == " +:+ role +:+ LF +:+
                    "Username == " +:+ username)]).
Proof.
  intros Hd Hpre Hname Hui Harn Ha Hrole Husername Hre Hiset Hitems Hnames.
  rewrite (get_events_at ty d pre rd post t Hd Hpre Hname).
  apply (extract_record_ok rd ui re iset
           (a +:+ "/" +:+ role +:+ "/" +:+ username) a role username
           items names t); try assumption.
  apply (str_split_join "/" [a; role; username]); [discriminate|].
  now repeat constructor.
Qed.

Lemma arn_parts_are_extracted_witness :
  get_events (JObj two_launches_log) "RunInstances" [] =
    (Ok (EventFound "alice" "Admin" [JStr "i-1"; JStr "i-2"]),
     [] ++ [LogInfo "RUNINSTANCES event found.";
            LogInfo ("Assumed Role == " +:+ "Admin" +:+ LF +:+
                     "Username == " +:+ "alice")]).
Proof.
  apply (arn_parts_are_extracted "RunInstances" two_launches_log
           scenario_A_record
           {[ "arn" := JStr "arn:aws:sts::123:assumed-role/Admin/alice" ]}
           {[ "instancesSet" :=
                JObj {[ "items" :=
                  JArr [JObj {[ "instanceId" := JStr "i-1" ]};
                        JObj {[ "instanceId" := JStr "i-2" ]}] ]} ]}
           {[ "items" :=
                JArr [JObj {[ "instanceId" := JStr "i-1" ]};
                      JObj {[ "instanceId" := JStr "i-2" ]}] ]}
           [JObj other_record] [JObj second_launch_record]
           [JObj {[ "instanceId" := JStr "i-1" ]};
            JObj {[ "instanceId" := JStr "i-2" ]}]
           [JStr "i-1"; JStr "i-2"]
           "arn:aws:sts::123:assumed-role" "Admin" "alice" []);
    try reflexivity.
  repeat constructor.
Defined.

(** ** Faults at the record found *)

Lemma extract_record_unfold record t :
  extract_record record t =
  match and_then (getitem record "userIdentity") (fun user_identity =>
        and_then (getitem user_identity "arn") (fun iam_entity =>
        and_then (split_slash iam_entity) unpack3)) with
  | Raise e => (Raise e, t ++ [LogInfo "RUNINSTANCES event found."])
  | Ok (_, role, username) =>
      let logged :=
        t ++ [LogInfo "RUNINSTANCES event found.";
              LogInfo ("Assumed Role == " +:+ role +:+ LF +:+
                       "Username == " +:+ username)] in
      match and_then (getitem record "responseElements")
              (fun response_elements =>
            and_then (getitem response_elements "instancesSet")
              (fun instances_set =>
            and_then (getitem instances_set "items") iter)) with
      | Raise e => (Raise e, logged)
      | Ok items =>
          match instance_names_loop items [] logged with
          | (Ok names, t') => (Ok (EventFound username role names), t')
          | (Raise e, t') => (Raise e, t')
          end
      end
  end.
Proof.
  unfold extract_record, item. unfold bind, lift, emit, ret, and_then.
  destruct (getitem record "userIdentity") as [ui|]; [|reflexivity].
  destruct (getitem ui "arn") as [arnv|]; [|reflexivity].
  destruct (split_slash arnv) as [parts|]; [|reflexivity].
  destruct (unpack3 parts) as [[[a role] username]|]; [|reflexivity].
  cbv zeta. rewrite <- app_assoc. simpl app.
  destruct (getitem record "responseElements") as [re|]; [|reflexivity].
  destruct (getitem re "instancesSet") as [iset|]; [|reflexivity].
  destruct (getitem iset "items") as [instances|]; [|reflexivity].
  now destruct (iter instances).
Qed.

(** X7: a record that cannot be tested stops the scan.  When the records
    before it are of other events and [record['eventName']] raises (the
    key is absent, or the record is no dict), [get_events] raises that
    exception with nothing logged, whatever follows in the log, a record
    of the event looked for included. *)
Theorem untestable_record_stops_scan (ty : string) (d : gmap string json)
    (pre post : list json) (record : json) (e : exn) (t : trace) :
  d !! "Records" = Some (JArr (pre ++ record :: post)) ->
  forallb (other_event ty) pre = true ->
  getitem record "eventName" = Raise e ->
  get_events (JObj d) ty t = (Raise e, t).
Proof.
  intros Hd Hpre Hrecord.
  rewrite (get_events_records _ _ _ _ Hd), get_events_loop_skip by exact Hpre.
  simpl. unfold item, bind, lift. now rewrite Hrecord.
Qed.

Lemma untestable_record_stops_scan_witness :
  get_events
    (JObj {[ "Records" := JArr ([JObj other_record] ++ JObj nameless_record ::
                                [JObj scenario_A_record]) ]})
    "RunInstances" [] = (Raise (KeyError (JStr "eventName")), []).
Proof.
  apply (untestable_record_stops_scan "RunInstances"
           {[ "Records" := JArr ([JObj other_record] ++ JObj nameless_record ::
                                 [JObj scenario_A_record]) ]}
           [JObj other_record] [JObj scenario_A_record]
           (JObj nameless_record) (KeyError (JStr "eventName")) []);
    reflexivity.
Defined.

(** X8: the identity is read before anything else of the record found.
    When [record['userIdentity']['arn'].split('/')] raises (no
    [userIdentity], no [arn], an arn that is no str), [get_events] raises
    that exception; the record has been announced in the log, and no role
    or username has. *)
Theorem identity_fault_is_raised (ty : string) (d rd : gmap string json)
    (pre post : list json) (e : exn) (t : trace) :
  d !! "Records" = Some (JArr (pre ++ JObj rd :: post)) ->
  forallb (other_event ty) pre = true ->
  rd !! "eventName" = Some (JStr ty) ->
  and_then (getitem (JObj rd) "userIdentity") (fun user_identity =>
    and_then (getitem user_identity "arn") split_slash) = Raise e ->
  get_events (JObj d) ty t =
    (Raise e, t ++ [LogInfo "RUNINSTANCES event found."]).
Proof.
  intros Hd Hpre Hname Hidentity.
  rewrite (get_events_at ty d pre rd post t Hd Hpre Hname).
  rewrite extract_record_unfold. unfold and_then in *.
  destruct (getitem (JObj rd) "userIdentity") as [ui|];
    [|now injection Hidentity as ->].
  destruct (getitem ui "arn") as [arnv|]; [|now injection Hidentity as ->].
  rewrite Hidentity. reflexivity.
Qed.

Lemma identity_fault_is_raised_witness :
  get_events (JObj {[ "Records" := JArr ([] ++ JObj service_launch_record :: []) ]})
    "RunInstances" [] =
    (Raise (KeyError (JStr "arn")),
     [] ++ [LogInfo "RUNINSTANCES event found."]).
Proof.
  apply (identity_fault_is_raised "RunInstances"
           {[ "Records" := JArr ([] ++ JObj service_launch_record :: []) ]}
           service_launch_record [] [] (KeyError (JStr "arn")) []);
    reflexivity.
Defined.

(** X9: a launch without its items faults after the identity has been
    logged.  When the arn of the record found has its three pieces and
    [record['responseElements']['instancesSet']['items']] raises or is
    not iterable (a failed launch has a null [responseElements]),
    [get_events] raises that exception, the role and the username being
    in the log already; nothing is returned. *)
Theorem items_fault_is_raised (ty : string) (d rd ui : gmap string json)
    (pre post : list json) (arn a role username : string) (e : exn)
    (t : trace) :
  d !! "Records" = Some (JArr (pre ++ JObj rd :: post)) ->
  forallb (other_event ty) pre = true ->
  rd !! "eventName" = Some (JStr ty) ->
  rd !! "userIdentity" = Some (JObj ui) ->
  ui !! "arn" = Some (JStr arn) ->
  str_split "/" arn = [a; role; username] ->
  and_then (getitem (JObj rd) "responseElements") (fun response_elements =>
    and_then (getitem response_elements "instancesSet") (fun instances_set =>
      and_then (getitem instances_set "items") iter)) = Raise e ->
  get_events (JObj d) ty t =
    (Raise e,
     t ++ [LogInfo "RUNINSTANCES event found.";
           LogInfo ("Assumed Role == " +:+ role +:+ LF +:+
                    "Username == " +:+ username)]).
Proof.
  intros Hd Hpre Hname Hui Harn Hsplit Hitems.
  rewrite (get_events_at ty d pre rd post t Hd Hpre Hname).
  rewrite extract_record_unfold, Hitems.
  simpl. rewrite Hui. simpl. rewrite Harn. simpl. now rewrite Hsplit.
Qed.

Lemma items_fault_is_raised_witness :
  get_events (JObj {[ "Records" := JArr ([] ++ JObj failed_launch_record :: []) ]})
    "RunInstances" [] =
    (Raise TypeError,
     [] ++ [LogInfo "RUNINSTANCES event found.";
            LogInfo ("Assumed Role == " +:+ "Admin" +:+ LF +:+
                     "Username == " +:+ "alice")]).
Proof.
  apply (items_fault_is_raised "RunInstances"
           {[ "Records" := JArr ([] ++ JObj failed_launch_record :: []) ]}
           failed_launch_record
           {[ "arn" := JStr "arn:aws:sts::123:assumed-role/Admin/alice" ]}
           [] [] "arn:aws:sts::123:assumed-role/Admin/alice"
           "arn:aws:sts::123:assumed-role" "Admin" "alice" TypeError []);
    reflexivity.
Defined.

(** X10: the instance names come all or none.  When an item of the
    record found has no [instanceId] (or is no dict), the items before it
    having theirs, [get_events] raises the exception of that access; the
    names gathered so far are dropped, not returned. *)
Theorem item_fault_is_raised (ty : string)
    (d rd ui re iset : gmap string json)
    (pre post items ids rest : list json) (item_ : json)
    (arn a role username : string) (e : exn) (t : trace) :
  d !! "Records" = Some (JArr (pre ++ JObj rd :: post)) ->
  forallb (other_event ty) pre = true ->
  rd !! "eventName" = Some (JStr ty) ->
  rd !! "userIdentity" = Some (JObj ui) ->
  ui !! "arn" = Some (JStr arn) ->
  str_split "/" arn = [a; role; username] ->
  rd !! "responseElements" = Some (JObj re) ->
  re !! "instancesSet" = Some (JObj iset) ->
  iset !! "items" = Some (JArr (items ++ item_ :: rest)) ->
  Forall2 (fun item_ name => getitem item_ "instanceId" = Ok name)
    items ids ->
  getitem item_ "instanceId" = Raise e ->
  get_events (JObj d) ty t =
    (Raise e,
     t ++ [LogInfo "RUNINSTANCES event found.";
           LogInfo ("Assumed Role == " +:+ role +:+ LF +:+
                    "Username == " +:+ username)]).
Proof.
  intros Hd Hpre Hname Hui Harn Hsplit Hre Hiset Hitems Hids Hitem.
  rewrite (get_events_at ty d pre rd post t Hd Hpre Hname).
  rewrite extract_record_unfold.
  simpl. rewrite Hui. simpl. rewrite Harn. simpl. rewrite Hsplit. simpl.
  rewrite Hre. simpl. rewrite Hiset. simpl. rewrite Hitems. simpl.
  now rewrite (instance_names_loop_fault items ids item_ rest [] e _ Hids Hitem).
Qed.

Lemma item_fault_is_raised_witness :
  get_events (JObj {[ "Records" := JArr ([] ++ JObj missing_id_record :: []) ]})
    "RunInstances" [] =
    (Raise (KeyError (JStr "instanceId")),
     [] ++ [LogInfo "RUNINSTANCES event found.";
            LogInfo ("Assumed Role == " +:+ "Admin" +:+ LF +:+
                     "Username == " +:+ "alice")]).
Proof.
  apply (item_fault_is_raised "RunInstances"
           {[ "Records" := JArr ([] ++ JObj missing_id_record :: []) ]}
           missing_id_record
           {[ "arn" := JStr "arn:aws:sts::123:assumed-role/Admin/alice" ]}
           {[ "instancesSet" :=
                JObj {[ "items" :=
                  JArr [JObj {[ "instanceId" := JStr "i-1" ]};
                        JObj {[ "imageId" := JStr "ami-1" ]}] ]} ]}
           {[ "items" :=
                JArr [JObj {[ "instanceId" := JStr "i-1" ]};
                      JObj {[ "imageId" := JStr "ami-1" ]}] ]}
           [] [] [JObj {[ "instanceId" := JStr "i-1" ]}] [JStr "i-1"] []
           (JObj {[ "imageId" := JStr "ami-1" ]})
           "arn:aws:sts::123:assumed-role/Admin/alice"
           "arn:aws:sts::123:assumed-role" "Admin" "alice"
           (KeyError (JStr "instanceId")) []);
    try reflexivity.
  repeat constructor.
Defined.

(** ** The notification *)

(** X11: a POST that cannot be made ends the invocation.  When the
    extraction succeeded and [requests.post] raises (no connection, say),
    [update_slack] and [lambda_handler] raise that exception; the call has
    been made once, no status line is logged and nothing retries it. *)
Theorem post_failure_is_raised (w : Env) (event json_data : json)
    (username role : string) (names : list json) (ids : list string)
    (e : exn) (t1 t2 : trace) :
  run (format_data w event) = (Ok json_data, t1) ->
  get_events json_data "RunInstances" t1 =
    (Ok (EventFound username role names), t2) ->
  all_str names = Some ids ->
  requests_post w (SLACK_URL w) slack_header
    (slack_data username role (str_join LF ids)) = Raise e ->
  update_slack w username role names t2 =
    (Raise e,
     t2 ++ [HttpPost (SLACK_URL w) slack_header
              (slack_data username role (str_join LF ids))]) /\
  run (lambda_handler w event) =
    (Raise e,
     t2 ++ [HttpPost (SLACK_URL w) slack_header
              (slack_data username role (str_join LF ids))]).
Proof.
  intros Hformat Hget Hnames Hpost.
  assert (update_slack w username role names t2 =
          (Raise e,
           t2 ++ [HttpPost (SLACK_URL w) slack_header
                    (slack_data username role (str_join LF ids))]))
    as Hupdate.
  { rewrite update_slack_unfold, Hnames. cbv zeta. now rewrite Hpost. }
  split; [exact Hupdate|].
  unfold run in *. now rewrite lambda_handler_unfold, Hformat, Hget, Hupdate.
Qed.

Lemma post_failure_is_raised_witness :
  update_slack unreachable_webhook_env "alice" "Admin"
    [JStr "i-1"; JStr "i-2"]
    [S3GetObject (JStr "logs") (JStr "trail.json.gz");
     LogInfo "RUNINSTANCES event found.";
     LogInfo ("Assumed Role == Admin" +:+ LF +:+ "Username == alice")] =
    (Raise (LibraryError "ConnectionError"),
     [S3GetObject (JStr "logs") (JStr "trail.json.gz");
      LogInfo "RUNINSTANCES event found.";
      LogInfo ("Assumed Role == Admin" +:+ LF +:+ "Username == alice")] ++
     [HttpPost (SLACK_URL unreachable_webhook_env) slack_header
        (slack_data "alice" "Admin" (str_join LF ["i-1"; "i-2"]))]) /\
  run (lambda_handler unreachable_webhook_env trail_event) =
    (Raise (LibraryError "ConnectionError"),
     [S3GetObject (JStr "logs") (JStr "trail.json.gz");
      LogInfo "RUNINSTANCES event found.";
      LogInfo ("Assumed Role == Admin" +:+ LF +:+ "Username == alice")] ++
     [HttpPost (SLACK_URL unreachable_webhook_env) slack_header
        (slack_data "alice" "Admin" (str_join LF ["i-1"; "i-2"]))]).
Proof.
  apply (post_failure_is_raised unreachable_webhook_env trail_event
           (JObj scenario_A_log) "alice" "Admin" [JStr "i-1"; JStr "i-2"]
           ["i-1"; "i-2"] (LibraryError "ConnectionError")
           [S3GetObject (JStr "logs") (JStr "trail.json.gz")]);
    vm_compute; reflexivity.
Defined.

(** X12: whatever the event and the log, every POST of an invocation goes
    to [SLACK_URL], with the one header [content-type: application/json],
    and its body is the dict [update_slack] builds from a username, a role
    and an instance text. *)
Theorem posts_go_to_the_webhook (w : Env) (event : json) :
  Forall (fun e => exists username role instance_str,
            e = HttpPost (SLACK_URL w) slack_header
                  (slack_data username role instance_str))
    (posts (snd (run (lambda_handler w event)))).
Proof.
  unfold run. rewrite lambda_handler_posts. simpl.
  destruct (format_data w event []) as [[json_data|e] t1]; [|constructor].
  destruct (get_events json_data "RunInstances" t1)
    as [[[username role names|]|e] t2]; try constructor.
  destruct (all_str names) as [ids|]; constructor; [|constructor].
  now exists username, role, (str_join LF ids).
Qed.

(** X13: the instance text can be read back.  For one id or more, none
    holding a line feed, splitting the attachment text of the POST at the
    line feeds gives the ids again, as many and in the same order; and
    with no id at all the POST is made all the same, with an empty
    text. *)
Theorem attachment_text_reads_back (w : Env) (username role : string)
    (ids : list string) (t : trace) :
  Forall (fun id => count_char "010" id = 0%nat) ids ->
  exists data attachment text,
    posts (snd (update_slack w username role (JStr <$> ids) t)) =
      posts t ++ [HttpPost (SLACK_URL w) slack_header data] /\
    getitem data "attachments" = Ok (JArr [attachment]) /\
    getitem attachment "text" = Ok (JStr text) /\
    (ids <> [] -> str_split "010" text = ids) /\
    (ids = [] -> text = "").
Proof.
  intros Hids.
  exists (slack_data username role (str_join LF ids)),
         (slack_attachment username role (str_join LF ids)),
         (str_join LF ids).
  rewrite update_slack_posts, all_str_strs.
  split; [reflexivity|]. split; [reflexivity|]. split; [reflexivity|].
  split.
  - intros Hne. now apply (str_split_join "010" ids).
  - now intros ->.
Qed.

Lemma attachment_text_reads_back_witness :
  exists data attachment text,
    posts (snd (update_slack (scenario_A_env 200) "alice" "Admin"
                  (JStr <$> ["i-2"; "i-1"; "i-2"]) [])) =
      posts [] ++
      [HttpPost (SLACK_URL (scenario_A_env 200)) slack_header data] /\
    getitem data "attachments" = Ok (JArr [attachment]) /\
    getitem attachment "text" = Ok (JStr text) /\
    (["i-2"; "i-1"; "i-2"] <> [] ->
     str_split "010" text = ["i-2"; "i-1"; "i-2"]) /\
    (["i-2"; "i-1"; "i-2"] = [] -> text = "").
Proof.
  apply (attachment_text_reads_back (scenario_A_env 200) "alice" "Admin"
           ["i-2"; "i-1"; "i-2"] []).
  repeat constructor.
Defined.



(** ** The one read of an invocation *)

Lemma reads_nothing_ret {A} (a : A) : reads_nothing (ret a).
Proof. intros t. exists []. simpl. now rewrite app_nil_r. Qed.

Lemma reads_nothing_lift {A} (r : result A) : reads_nothing (lift r).
Proof. intros t. exists []. simpl. now rewrite app_nil_r. Qed.

Lemma reads_nothing_emit e : is_read e = false -> reads_nothing (emit e).
Proof. intros He t. exists [e]. simpl. now rewrite He. Qed.

Lemma reads_nothing_bind {A B} (m : M A) (k : A -> M B) :
  reads_nothing m -> (forall a, reads_nothing (k a)) ->
  reads_nothing (bind m k).
Proof.
  intros Hm Hk t. unfold bind.
  destruct (Hm t) as (es & Hes & Hp). destruct (m t) as [[a|e] t']; simpl in *.
  - destruct (Hk a t') as (es' & Hes' & Hp'). exists (es ++ es').
    rewrite Hes', Hes, <- app_assoc, forallb_app, Hp, Hp'. now split.
  - now exists es.
Qed.

Lemma reads_nothing_instance_names_loop items acc :
  reads_nothing (instance_names_loop items acc).
Proof.
  revert acc. induction items as [|x items IH]; intros acc; simpl.
  - apply reads_nothing_ret.
  - apply reads_nothing_bind; [apply reads_nothing_lift | intros v; apply IH].
Qed.

Lemma reads_nothing_extract_record record :
  reads_nothing (extract_record record).
Proof.
  unfold extract_record, item.
  repeat first
    [ apply reads_nothing_bind; [| intros ?]
    | apply reads_nothing_lift
    | apply reads_nothing_ret
    | apply reads_nothing_instance_names_loop
    | apply reads_nothing_emit; reflexivity
    | match goal with
      | |- reads_nothing (let '(_, _) := ?p in _) => destruct p
      end ].
Qed.

Lemma reads_nothing_get_events json_data ty :
  reads_nothing (get_events json_data ty).
Proof.
  unfold get_events, item.
  apply reads_nothing_bind; [apply reads_nothing_lift | intros records_v].
  apply reads_nothing_bind; [apply reads_nothing_lift | intros records].
  induction records as [|r records IH]; simpl.
  - apply reads_nothing_ret.
  - apply reads_nothing_bind; [apply reads_nothing_lift | intros v].
    destruct (eq_str v ty); [apply reads_nothing_extract_record | apply IH].
Qed.

Lemma reads_nothing_update_slack w username role names :
  reads_nothing (update_slack w username role names).
Proof.
  unfold update_slack.
  repeat first
    [ apply reads_nothing_bind; [| intros ?]
    | apply reads_nothing_lift
    | apply reads_nothing_ret
    | apply reads_nothing_emit; reflexivity ].
Qed.

(** X15: an invocation reads one object at most, and first of all.  Its
    trace is empty, when the bucket or the key cannot be read off the
    event, or starts with the call of [s3.get_object] for the bucket and
    key of the first record, and no other such call follows, whatever the
    log holds and however the invocation ends. *)
Theorem one_read_first (w : Env) (event : json) :
  snd (run (lambda_handler w event)) = [] \/
  exists bucket key es,
    event_bucket event = Ok bucket /\
    event_key event = Ok key /\
    snd (run (lambda_handler w event)) = S3GetObject bucket key :: es /\
    forallb (fun e => negb (is_read e)) es = true.
Proof.
  unfold run. rewrite lambda_handler_unfold, format_data_unfold.
  destruct (event_bucket event) as [bucket|]; [|now left].
  destruct (event_key event) as [key|]; [|now left].
  right. exists bucket, key. simpl app.
  destruct (fetch_decode w bucket key) as [json_data|];
    [|now exists []].
  destruct (reads_nothing_get_events json_data "RunInstances"
              [S3GetObject bucket key]) as (es & Hes & Hno).
  destruct (get_events json_data "RunInstances" [S3GetObject bucket key])
    as [[[username role names|]|e] t2]; simpl in Hes; subst t2;
    try (now exists es).
  destruct (reads_nothing_update_slack w username role names
              ([S3GetObject bucket key] ++ es)) as (es' & Hes' & Hno').
  destruct (update_slack w username role names _) as [[code|e] t3];
    simpl in Hes'; subst t3; exists (es ++ es'); simpl;
    now rewrite forallb_app, Hno, Hno'.
Qed.
